(** * Statement synchronisation script (src/main.py): a shallow embedding

    The script downloads bank statements with an external downloader,
    feeds the downloaded files to an external importer and prints one
    merged JSON report.  The embedding follows the Python source function
    by function: [load_env_file], [download_statements],
    [import_statement_to_pohoda] and [main].

    Conventions of the embedding.
    - A Python [str] is the list of its code points ([list N]); [py]
      turns an ASCII literal into such a list.
    - A [dict] used as a plain mapping of strings (the environment) is a
      [gmap]; a [dict] that is part of a JSON document keeps its insertion
      order and is an association list with unique keys.
    - Everything outside the interpreter (the file system, the environment
      of the process, the external programs, the clock) is threaded
      through the functions as an explicit [world]. *)

From Stdlib Require Import ZArith NArith List Ascii String Lia.
From stdpp Require Import base option list strings gmap fin_maps.

Set Warnings "-register-all".

Local Open Scope N_scope.

(** ** Python strings *)

Abbreviation str := (list N).

Definition py (s : string) : str :=
  (λ a, N_of_ascii a) <$> list_ascii_of_string s.

(** [str.isspace] for one character, the set used by [str.strip()]. *)
Definition isspace (c : N) : bool :=
  ((0x09 <=? c) && (c <=? 0x0D)) || ((0x1C <=? c) && (c <=? 0x20))
  || (c =? 0x85) || (c =? 0xA0) || (c =? 0x1680)
  || ((0x2000 <=? c) && (c <=? 0x200A))
  || (c =? 0x2028) || (c =? 0x2029) || (c =? 0x202F) || (c =? 0x205F)
  || (c =? 0x3000).

Fixpoint lstrip (s : str) : str :=
  match s with
  | [] => []
  | c :: r => if isspace c then lstrip r else s
  end.

Definition rstrip (s : str) : str := reverse (lstrip (reverse s)).

(** [s.strip()] *)
Definition strip (s : str) : str := rstrip (lstrip s).

(** [s.startswith(p)] *)
Fixpoint startswith (p s : str) : bool :=
  match p, s with
  | [], _ => true
  | _ :: _, [] => false
  | a :: p', b :: s' => (a =? b) && startswith p' s'
  end.

(** [c in s] for a one-character [c] *)
Definition contains (c : N) (s : str) : bool := existsb (N.eqb c) s.

(** [s.split(c, 1)]: the whole string when [c] does not occur, otherwise
    the text before the first [c] and the text after it. *)
Fixpoint split1 (c : N) (s : str) : list str :=
  match s with
  | [] => [[]]
  | x :: r =>
      if x =? c then [[]; r]
      else match split1 c r with
           | a :: rest => (x :: a) :: rest
           | [] => [[x]]
           end
  end.

(** ** Text files *)

(** Text mode reads with universal newlines: CR LF and a lone CR reach
    the program as LF. *)
Fixpoint universal_newlines (s : str) : str :=
  match s with
  | [] => []
  | c :: r =>
      if c =? 0x0D
      then 0x0A :: match r with
                   | c' :: r' => if c' =? 0x0A then universal_newlines r'
                                 else universal_newlines r
                   | [] => []
                   end
      else c :: universal_newlines r
  end.

(** Iterating over a file object yields its lines, each with its
    terminating LF (the last one may lack it). *)
Fixpoint iter_lines (s : str) : list str :=
  match s with
  | [] => []
  | c :: r =>
      if c =? 0x0A then [c] :: iter_lines r
      else match iter_lines r with
           | [] => [[c]]
           | l :: ls => (c :: l) :: ls
           end
  end.

(** What a path names. Opening a directory for reading raises. *)
Inductive node :=
  | File (text : str)
  | Directory.

(** ** load_env_file (main.py, lines 24-45) *)

(** The body of the [for line in f] loop, on the mapping built so far. *)
Definition load_env_line (env_vars : gmap str str) (line : str) : gmap str str :=
  let line := strip line in
  if bool_decide (line = []) || startswith (py "#") line then env_vars
  else if contains 0x3D line then
    match split1 0x3D line with
    | [key; value] => <[strip key := strip value]> env_vars
    | _ => env_vars (* not reached: the line contains the sign *)
    end
  else env_vars.

(** [None] stands for the exception that [env_file.open()] raises. *)
Definition load_env_file (env_path : str) (fs : gmap str node)
  : option (gmap str str) :=
  match fs !! env_path with
  | None => Some ∅
  | Some Directory => None
  | Some (File text) =>
      Some (foldl load_env_line ∅ (iter_lines (universal_newlines text)))
  end.

(** ** JSON documents *)

(** A float keeps the decimal literal it was read from,
    [± digits · 10 ^ exp10], or is one of the three names that
    [json.loads] accepts beside the numbers. *)
Inductive pyfloat :=
  | FDec (neg : bool) (digits : N) (exp10 : Z)
  | FNaN
  | FInf (neg : bool).

Inductive json :=
  | JNull
  | JBool (b : bool)
  | JInt (n : Z)
  | JFloat (f : pyfloat)
  | JStr (s : str)
  | JArr (items : list json)
  | JObj (members : list (str * json)).

Abbreviation dict := (list (str * json)).

(** [d.get(k)] *)
Fixpoint dict_get (k : str) (d : dict) : option json :=
  match d with
  | [] => None
  | (k', v) :: r => if bool_decide (k' = k) then Some v else dict_get k r
  end.

(** [d[k] = v]: an existing key keeps its place, a new one goes last. *)
Fixpoint dict_set (k : str) (v : json) (d : dict) : dict :=
  match d with
  | [] => [(k, v)]
  | (k', v') :: r =>
      if bool_decide (k' = k) then (k, v) :: r else (k', v') :: dict_set k v r
  end.

(** [dict(pairs)] *)
Definition dict_of_pairs (pairs : dict) : dict :=
  foldl (λ d kv, dict_set kv.1 kv.2 d) [] pairs.

(** ** json.loads *)

Definition json_ws (c : N) : bool :=
  (c =? 0x20) || (c =? 0x09) || (c =? 0x0A) || (c =? 0x0D).

Fixpoint skip_ws (s : str) : str :=
  match s with
  | [] => []
  | c :: r => if json_ws c then skip_ws r else s
  end.

Definition is_digit (c : N) : bool := (0x30 <=? c) && (c <=? 0x39).

Definition hex_digit (c : N) : option N :=
  if is_digit c then Some (c - 0x30)
  else if (0x41 <=? c) && (c <=? 0x46) then Some (c - 0x41 + 10)
  else if (0x61 <=? c) && (c <=? 0x66) then Some (c - 0x61 + 10)
  else None.

Definition hex4 (a b c d : N) : option N :=
  match hex_digit a, hex_digit b, hex_digit c, hex_digit d with
  | Some x, Some y, Some z, Some w => Some (((x * 16 + y) * 16 + z) * 16 + w)
  | _, _, _, _ => None
  end.

(** The one-letter escapes of a JSON string. *)
Definition escape_char (e : N) : option N :=
  if e =? 0x22 then Some 0x22       (* quotation mark *)
  else if e =? 0x5C then Some 0x5C  (* reverse solidus *)
  else if e =? 0x2F then Some 0x2F  (* solidus *)
  else if e =? 0x62 then Some 0x08  (* b: backspace *)
  else if e =? 0x66 then Some 0x0C  (* f: form feed *)
  else if e =? 0x6E then Some 0x0A  (* n: line feed *)
  else if e =? 0x72 then Some 0x0D  (* r: carriage return *)
  else if e =? 0x74 then Some 0x09  (* t: tab *)
  else None.

Definition high_surrogate (u : N) : bool := (0xD800 <=? u) && (u <=? 0xDBFF).
Definition low_surrogate (u : N) : bool := (0xDC00 <=? u) && (u <=? 0xDFFF).

(** The body of a string, read from just after its opening quote up to
    the closing one (strict mode: no raw control character). *)
Fixpoint scanstring (s : str) (acc : str) : option (str * str) :=
  match s with
  | [] => None
  | c :: r =>
      if c =? 0x22 then Some (reverse acc, r)
      else if c =? 0x5C then
        match r with
        | [] => None
        | e :: r1 =>
            if e =? 0x75 then
              match r1 with
              | h1 :: h2 :: h3 :: h4 :: r2 =>
                  match hex4 h1 h2 h3 h4 with
                  | None => None
                  | Some uni =>
                      match r2 with
                      | b :: u :: r3 =>
                          if high_surrogate uni && (b =? 0x5C) && (u =? 0x75)
                          then
                            match r3 with
                            | g1 :: g2 :: g3 :: g4 :: r4 =>
                                match hex4 g1 g2 g3 g4 with
                                | None => None
                                | Some uni2 =>
                                    if low_surrogate uni2
                                    then scanstring r4
                                           (0x10000 + N.lor (N.shiftl (uni - 0xD800) 10)
                                                            (uni2 - 0xDC00) :: acc)
                                    else scanstring r2 (uni :: acc)
                                end
                            | _ => None
                            end
                          else scanstring r2 (uni :: acc)
                      | _ => scanstring r2 (uni :: acc)
                      end
                  end
              | _ => None
              end
            else
              match escape_char e with
              | Some ch => scanstring r1 (ch :: acc)
              | None => None
              end
        end
      else if c <? 0x20 then None
      else scanstring r (c :: acc)
  end.

Fixpoint span_digits (s : str) : str * str :=
  match s with
  | c :: r => if is_digit c then let '(ds, r') := span_digits r in (c :: ds, r')
              else ([], s)
  | [] => ([], [])
  end.

Definition digits_value (ds : str) : N :=
  foldl (λ n c, 10 * n + (c - 0x30)) 0 ds.

(** The number pattern of the scanner: an optional minus sign; a zero,
    or a digit from 1 to 9 followed by digits; optionally a point with
    at least one digit; optionally e or E, a sign and at least one
    digit. Each part returns what it read and the rest of the text. *)

Definition scan_minus (s : str) : bool * str :=
  match s with
  | c :: r => if c =? 0x2D then (true, r) else (false, s)
  | [] => (false, s)
  end.

Definition scan_integer (s : str) : option (str * str) :=
  match s with
  | c :: r =>
      if c =? 0x30 then Some ([c], r)
      else if is_digit c
           then let '(ds, r') := span_digits r in Some (c :: ds, r')
           else None
  | [] => None
  end.

Definition scan_fraction (s : str) : option str * str :=
  match s with
  | c :: r =>
      if c =? 0x2E
      then match span_digits r with
           | ([], _) => (None, s)
           | (fd, r') => (Some fd, r')
           end
      else (None, s)
  | [] => (None, s)
  end.

Definition scan_exponent (s : str) : option Z * str :=
  match s with
  | c :: r =>
      if (c =? 0x65) || (c =? 0x45)
      then
        let '(eneg, r1) :=
          match r with
          | g :: r' => if g =? 0x2D then (true, r')
                       else if g =? 0x2B then (false, r')
                       else (false, r)
          | [] => (false, r)
          end in
        match span_digits r1 with
        | ([], _) => (None, s)
        | (ed, r') =>
            let e := Z.of_N (digits_value ed) in
            (Some (if eneg then (- e)%Z else e), r')
        end
      else (None, s)
  | [] => (None, s)
  end.

(** A fraction or an exponent makes the number a float, otherwise it is
    an integer. *)
Definition match_number (s : str) : option (json * str) :=
  let '(neg, s1) := scan_minus s in
  match scan_integer s1 with
  | None => None
  | Some (ip, s2) =>
      let '(frac, s3) := scan_fraction s2 in
      let '(exp, s4) := scan_exponent s3 in
      match frac, exp with
      | None, None =>
          let n := Z.of_N (digits_value ip) in
          Some (JInt (if neg then (- n)%Z else n), s4)
      | _, _ =>
          let fd := default [] frac in
          Some (JFloat (FDec neg (digits_value (ip ++ fd))
                          (default 0%Z exp - Z.of_nat (length fd))), s4)
      end
  end.

(** [scan_once]: one JSON value at the head of [s]. The recursion
    follows the nesting of the text; [fuel] bounds it and
    [json_loads] supplies more than the text can use
    ([json_loads_fuel]). [array_items]
    starts at an element, [object_items] just after the opening quote
    of a key. *)
Fixpoint scan_once (fuel : nat) (s : str) : option (json * str) :=
  match fuel with
  | O => None
  | S n =>
      match s with
      | [] => None
      | c :: r =>
          if c =? 0x22 then
            match scanstring r [] with
            | Some (x, r') => Some (JStr x, r')
            | None => None
            end
          else if c =? 0x7B then
            match skip_ws r with
            | c' :: r' =>
                if c' =? 0x7D then Some (JObj [], r')
                else if c' =? 0x22 then object_items n r' []
                else None
            | [] => None
            end
          else if c =? 0x5B then
            match skip_ws r with
            | c' :: r' =>
                if c' =? 0x5D then Some (JArr [], r')
                else array_items n (c' :: r') []
            | [] => None
            end
          else if startswith (py "null") s then Some (JNull, drop 4 s)
          else if startswith (py "true") s then Some (JBool true, drop 4 s)
          else if startswith (py "false") s then Some (JBool false, drop 5 s)
          else
            match match_number s with
            | Some res => Some res
            | None =>
                if startswith (py "NaN") s then Some (JFloat FNaN, drop 3 s)
                else if startswith (py "Infinity") s
                     then Some (JFloat (FInf false), drop 8 s)
                else if startswith (py "-Infinity") s
                     then Some (JFloat (FInf true), drop 9 s)
                else None
            end
      end
  end
with array_items (fuel : nat) (s : str) (acc : list json) : option (json * str) :=
  match fuel with
  | O => None
  | S n =>
      match scan_once n s with
      | None => None
      | Some (v, r) =>
          match skip_ws r with
          | c :: r' =>
              if c =? 0x5D then Some (JArr (reverse (v :: acc)), r')
              else if c =? 0x2C then array_items n (skip_ws r') (v :: acc)
              else None
          | [] => None
          end
      end
  end
with object_items (fuel : nat) (s : str) (acc : dict) : option (json * str) :=
  match fuel with
  | O => None
  | S n =>
      match scanstring s [] with
      | None => None
      | Some (key, r) =>
          match skip_ws r with
          | c :: r1 =>
              if c =? 0x3A then
                match scan_once n (skip_ws r1) with
                | None => None
                | Some (v, r2) =>
                    match skip_ws r2 with
                    | c' :: r3 =>
                        if c' =? 0x7D
                        then Some (JObj (dict_of_pairs (reverse ((key, v) :: acc))), r3)
                        else if c' =? 0x2C then
                          match skip_ws r3 with
                          | q :: r4 =>
                              if q =? 0x22 then object_items n r4 ((key, v) :: acc)
                              else None
                          | [] => None
                          end
                        else None
                    | [] => None
                    end
                end
              else None
          | [] => None
          end
      end
  end.

(** [json.loads(s)] for a [str]; [None] stands for the exception raised
    on a text that is not one JSON document. Limits of the interpreter
    (recursion depth, digits of an integer) are not part of the model. *)
Definition json_loads (s : str) : option json :=
  if startswith [0xFEFF] s then None
  else
    match scan_once (S (2 * length s)) (skip_ws s) with
    | None => None
    | Some (v, r) => if bool_decide (skip_ws r = []) then Some v else None
    end.

(** ** Python values in a condition and under iteration *)

(** [float(literal) == 0.0]: the literal rounds to zero exactly when it
    is at most half the smallest subnormal, 2^-1075 (a tie rounds to
    the even neighbour, which is zero). *)
Definition float_is_zero (f : pyfloat) : bool :=
  match f with
  | FDec _ digits exp10 =>
      (digits =? 0)
      || ((exp10 <? 0)%Z
          && (Z.of_N digits * 2 ^ 1075 <=? 10 ^ (- exp10))%Z)
  | FNaN | FInf _ => false
  end.

(** [bool(j)], the test behind [if j:] and [if not j:]. *)
Definition truthy (j : json) : bool :=
  match j with
  | JNull => false
  | JBool b => b
  | JInt n => negb (n =? 0)%Z
  | JFloat f => negb (float_is_zero f)
  | JStr s => negb (bool_decide (s = []))
  | JArr items => negb (bool_decide (items = []))
  | JObj members => negb (bool_decide (members = []))
  end.

(** The same test on an [Optional] value: [None] is false. *)
Definition truthy_opt (o : option json) : bool :=
  match o with
  | None => false
  | Some j => truthy j
  end.

(** The test on the list of files that [download_statements] returns:
    [None] and the empty list are false. *)
Definition truthy_files (o : option (list str)) : bool :=
  match o with
  | None | Some [] => false
  | Some (_ :: _) => true
  end.

(** [j.get(k, dflt)]; only a dict has the method, on anything else the
    call raises ([None]). *)
Definition get_method (j : json) (k : str) (dflt : json) : option json :=
  match j with
  | JObj d => Some (default dflt (dict_get k d))
  | _ => None
  end.

(** [for entry in j]: the items of a list, the keys of a dict, the
    characters of a string; anything else is not iterable ([None]). *)
Definition iterate (j : json) : option (list json) :=
  match j with
  | JArr items => Some items
  | JObj members => Some ((λ kv, JStr kv.1) <$> members)
  | JStr s => Some ((λ c, JStr [c]) <$> s)
  | _ => None
  end.

(** ** The extraction pattern: Processed, a space, a group of one or
    more characters other than a colon, a colon *)

Fixpoint span_not_colon (s : str) : str * str :=
  match s with
  | c :: r => if c =? 0x3A then ([], s)
              else let '(g, r') := span_not_colon r in (c :: g, r')
  | [] => ([], [])
  end.

(** The pattern at the head of [s]; the result is the group. *)
Definition match_processed (s : str) : option str :=
  if startswith (py "Processed ") s then
    match span_not_colon (drop (length (py "Processed ")) s) with
    | ((_ :: _) as g, _ :: _) => Some g
    | _ => None
    end
  else None.

(** [re.search(pattern, s)]: the leftmost position where it matches. *)
Fixpoint re_search_processed (s : str) : option str :=
  match match_processed s with
  | Some g => Some g
  | None => match s with
            | [] => None
            | _ :: r => re_search_processed r
            end
  end.

(** The loop over [processed] (main.py, lines 81-85); an entry that is
    not a string makes [re.search] raise ([None]). *)
Fixpoint extract_files (entries : list json) (files : list str)
  : option (list str) :=
  match entries with
  | [] => Some files
  | JStr entry :: rest =>
      match re_search_processed entry with
      | Some g => extract_files rest (files ++ [g])
      | None => extract_files rest files
      end
  | _ :: _ => None
  end.

(** Lines 76-85 of main.py: parse the report and collect the files.
    [None] stands for any exception raised on the way, which line 88
    catches. *)
Definition read_downloader_report (out : str) : option (list str * json) :=
  report ← json_loads out;
  artifacts ← get_method report (py "artifacts") (JObj []);
  processed ← get_method artifacts (py "processed_files") (JArr []);
  entries ← iterate processed;
  files ← extract_files entries [];
  Some (files, report).

(** ** Writing the report of the importer to the standard output

    [print(f"Import result: {importer_report}")] (line 128) formats the
    report with [str] and writes the text to a standard output that
    encodes in UTF-8. A report that is a string is written as it is,
    and a surrogate code point in it cannot be encoded: the call
    raises. Inside a list or a dict a string is written escaped, and
    every other value is written in ASCII. *)

Definition surrogate (c : N) : bool := high_surrogate c || low_surrogate c.

Definition import_result_prints (importer_report : json) : bool :=
  match importer_report with
  | JStr s => negb (existsb surrogate s)
  | _ => true
  end.

(** ** The world outside the interpreter *)

Record completed_process := CompletedProcess {
  returncode : Z;
  stdout : str;
  stderr : str
}.

(** What the script prints. A formatted value is kept as the value. *)
Inductive message :=
  | DownloadedStatements (files : list str)
  | ImportResult (importer_report : json)
  | Dumps (report : json)
  | ErrorDownloadingStatements (diagnostics : str)
  | ErrorParsingDownloaderReport
  | ErrorRunningDownloader
  | ErrorImportingStatement (diagnostics : str)
  | ErrorParsingImporterReport
  | ErrorRunningImporter.

Inductive stream := Stdout | Stderr.

Record world := World {
  fs : gmap str node;
  environ : gmap str str;
  calls : list (list str * gmap str str);
  console : list (stream * message)
}.

Definition set_fs (f : gmap str node) (w : world) : world :=
  World f (environ w) (calls w) (console w).

Definition record_call (cmd : list str) (env : gmap str str) (w : world) : world :=
  World (fs w) (environ w) (calls w ++ [(cmd, env)]) (console w).

Definition print (to : stream) (m : message) (w : world) : world :=
  World (fs w) (environ w) (calls w) (console w ++ [(to, m)]).

(** The services of the host. A result of [None] is a raised exception. *)
Record host := Host {
  expanduser : str → str;
  subprocess_run :
    list str → gmap str str → gmap str node
    → option (completed_process * gmap str node);
  named_temporary_file : gmap str node → option str;
  makedirs : str → gmap str node → option (gmap str node);
  now_isoformat : str
}.

(** Line 22. *)
Definition DEFAULT_OUTPUT_DIR : str := py "statements".

(** The command line as [parser.parse_args()] returns it. *)
Record arguments := Arguments {
  from_date : str;
  to_date : str;
  output_dir : str;
  pohoda_url : str;
  pohoda_token : str
}.

(** How the interpreter leaves [main]. *)
Inductive termination :=
  | Returned
  | SysExit (code : Z)
  | Uncaught.

Definition exit_code (t : termination) : Z :=
  match t with
  | Returned => 0
  | SysExit code => code
  | Uncaught => 1
  end.

(** A command handed to [subprocess.run] with its environment: the call
    is recorded, then the host runs it. *)
Definition run (h : host) (cmd : list str) (env : gmap str str) (w : world)
  : option completed_process * world :=
  let w := record_call cmd env w in
  match subprocess_run h cmd env (fs w) with
  | None => (None, w)
  | Some (result, fs') => (Some result, set_fs fs' w)
  end.

Section Script.

Variable h : host.

(** ** download_statements (main.py, lines 48-93) *)

(** The command line of lines 61-67. *)
Definition downloader_cmd (output_dir : str) : list str :=
  let php_downloader :=
    expanduser h
      (py "~/Projects/VitexSoftware/csas-statement-tools/src/csas-statement-downloader.php") in
  [py "php"; php_downloader; py "-d" ++ output_dir;
   py "-fabo-standard"; py "-o"; py "php://stdout"].

Definition download_statements (from_date to_date output_dir : str) (w : world)
  : (option (list str) * option json) * world :=
  let cmd := downloader_cmd output_dir in
  match load_env_file (py ".env") (fs w) with
  | None => ((None, None), print Stderr ErrorRunningDownloader w)
  | Some overlay =>
      let env := overlay ∪ environ w in
      match run h cmd env w with
      | (None, w) => ((None, None), print Stderr ErrorRunningDownloader w)
      | (Some result, w) =>
          if bool_decide (returncode result ≠ 0%Z)
          then ((None, None),
                print Stderr (ErrorDownloadingStatements (stderr result)) w)
          else
            match read_downloader_report (stdout result) with
            | Some (files, report) =>
                ((Some files, Some report),
                 print Stdout (DownloadedStatements files) w)
            | None =>
                ((None, None), print Stderr ErrorParsingDownloaderReport w)
            end
      end
  end.

(** ** import_statement_to_pohoda (main.py, lines 96-135)

    [statement_file] is the list of files that [main] passes. *)

(** The command line of lines 109-117. *)
Definition importer_cmd (report_path : str) (statement_file : list str) : list str :=
  let php_importer :=
    expanduser h (py "~/Projects/SpojeNetIT/pohoda-abo-importer/src/importer.php") in
  [py "php"; php_importer; py "-o"; report_path] ++ statement_file.

Definition import_statement_to_pohoda
    (statement_file : list str) (pohoda_url pohoda_token : str) (w : world)
  : (option json * option str) * world :=
  match named_temporary_file h (fs w) with
  | None => ((None, None), print Stderr ErrorRunningImporter w)
  | Some report_path =>
      let w := set_fs (<[report_path := File []]> (fs w)) w in
      let cmd := importer_cmd report_path statement_file in
      match load_env_file (py ".env") (fs w) with
      | None => ((None, None), print Stderr ErrorRunningImporter w)
      | Some overlay =>
          let env := overlay ∪ environ w in
          match run h cmd env w with
          | (None, w) => ((None, None), print Stderr ErrorRunningImporter w)
          | (Some result, w) =>
              if bool_decide (returncode result ≠ 0%Z)
              then ((None, None),
                    print Stderr (ErrorImportingStatement (stderr result)) w)
              else
                match fs w !! report_path with
                | Some (File text) =>
                    match json_loads (universal_newlines text) with
                    | Some importer_report =>
                        if import_result_prints importer_report
                        then ((Some importer_report, Some report_path),
                              print Stdout (ImportResult importer_report) w)
                        else ((None, None),
                              print Stderr ErrorParsingImporterReport w)
                    | None =>
                        ((None, None), print Stderr ErrorParsingImporterReport w)
                    end
                | _ => ((None, None), print Stderr ErrorParsingImporterReport w)
                end
          end
      end
  end.

(** ** main (main.py, lines 138-182)

    [main] is the run from line 150 on, for the arguments that
    [parser.parse_args()] (lines 142-148) has returned. A command line
    that the parser refuses, or that asks for the help text, ends in
    the parser and does not get here. *)

(** [report["artifacts"][k] = v] *)
Definition set_artifact (k : str) (v : json) (report : dict) : dict :=
  match dict_get (py "artifacts") report with
  | Some (JObj artifacts) =>
      dict_set (py "artifacts") (JObj (dict_set k v artifacts)) report
  | _ => report (* not reached: the report is built with the key *)
  end.

(** [if downloader_report: report["downloader_report"] = downloader_report] *)
Definition add_downloader_report (downloader_report : option json) (report : dict)
  : dict :=
  match downloader_report with
  | Some r => if truthy r then dict_set (py "downloader_report") r report
              else report
  | None => report
  end.

Definition main (args : arguments) (w : world) : termination * world :=
  match makedirs h (output_dir args) (fs w) with
  | None => (Uncaught, w)
  | Some fs' =>
      let w := set_fs fs' w in
      let '((statement_files, downloader_report), w) :=
        download_statements (from_date args) (to_date args) (output_dir args) w in
      let report := [(py "timestamp", JStr (now_isoformat h));
                     (py "artifacts", JObj []);
                     (py "metrics", JObj [])] in
      if negb (truthy_files statement_files) then
          let report := dict_set (py "status") (JStr (py "error")) report in
          let report := dict_set (py "message")
                          (JStr (py "Failed to download statement(s).")) report in
          let report := add_downloader_report downloader_report report in
          (SysExit 1, print Stdout (Dumps (JObj report)) w)
      else
          let files := default [] statement_files in
          let report := set_artifact (py "imported_statement")
                          (JArr (JStr <$> files)) report in
          let '((importer_report, importer_report_path), w) :=
            import_statement_to_pohoda files (pohoda_url args) (pohoda_token args) w in
          if negb (truthy_opt importer_report) then
            let report := dict_set (py "status") (JStr (py "error")) report in
            let report := dict_set (py "message")
                            (JStr (py "Failed to import statement(s) to Pohoda."))
                            report in
            let report := add_downloader_report downloader_report report in
            (SysExit 2, print Stdout (Dumps (JObj report)) w)
          else
            match importer_report with
            | Some ((JObj members) as importer_report) =>
                let report :=
                  dict_set (py "status")
                    (default (JStr (py "success")) (dict_get (py "status") members))
                    report in
                let report :=
                  dict_set (py "message")
                    (default (JStr (py "Statement(s) successfully imported to Pohoda."))
                       (dict_get (py "message") members))
                    report in
                let report := set_artifact (py "importer_report") importer_report report in
                let report :=
                  match downloader_report with
                  | Some r => if truthy r
                              then set_artifact (py "downloader_report") r report
                              else report
                  | None => report
                  end in
                (Returned, print Stdout (Dumps (JObj report)) w)
            | _ => (Uncaught, w)
            end
  end.

End Script.

(** ** Reading a report *)

(** The member of a document at a path of keys, as in
    [artifacts.imported_statement]. *)
Fixpoint json_at (path : list str) (j : json) : option json :=
  match path with
  | [] => Some j
  | k :: rest =>
      match j with
      | JObj members =>
          match dict_get k members with
          | Some v => json_at rest v
          | None => None
          end
      | _ => None
      end
  end.

(** Does the key occur anywhere in the document, at any depth? *)
Fixpoint has_key (k : str) (j : json) : bool :=
  match j with
  | JArr items => existsb (has_key k) items
  | JObj members =>
      existsb (λ kv, bool_decide (kv.1 = k) || has_key k kv.2) members
  | _ => false
  end.

(** The report that the run printed last on standard output. *)
Definition final_report (w : world) : option json :=
  match last (console w) with
  | Some (Stdout, Dumps report) => Some report
  | _ => None
  end.

(** A literal of JSON text, written with apostrophes where the text has
    quotation marks. *)
Definition pyq (s : string) : str :=
  (λ c, if c =? 0x27 then 0x22 else c) <$> py s.

(** ** The extraction rule, entry by entry *)

(** The path that one entry of [processed_files] contributes, if any. *)
Definition processed_path (entry : json) : option str :=
  match entry with
  | JStr s => re_search_processed s
  | _ => None
  end.

Definition extracted_paths (entries : list json) : list str :=
  omap processed_path entries.

Definition is_string (j : json) : Prop :=
  match j with
  | JStr _ => True
  | _ => False
  end.

(** ** The environment file, line by line, in the words of its contract *)

(** The text before the first [c] and the text after it. *)
Fixpoint before_first (c : N) (s : str) : str :=
  match s with
  | [] => []
  | x :: r => if x =? c then [] else x :: before_first c r
  end.

Fixpoint after_first (c : N) (s : str) : str :=
  match s with
  | [] => []
  | x :: r => if x =? c then r else after_first c r
  end.

(** A line counts when it is not blank, its first character that is not
    white space is not the number sign, and it contains an equals sign. *)
Definition env_line_counts (line : str) : bool :=
  negb (forallb isspace line)
  && negb (bool_decide (List.find (λ c, negb (isspace c)) line = Some 0x23))
  && bool_decide (0x3D ∈ line).

(** Its key and value: the line split on the first equals sign, each
    part trimmed. *)
Definition env_entry (line : str) : str * str :=
  (strip (before_first 0x3D line), strip (after_first 0x3D line)).

Definition env_entries (lines : list str) : list (str * str) :=
  env_entry <$> List.filter env_line_counts lines.

(** The lines of a file as the loader sees them. *)
Definition file_lines (text : str) : list str :=
  iter_lines (universal_newlines text).

(** ** A host to run the script on

    The external programs of this host are canned: the downloader ends
    as [downloader] says; the importer ends as [importer] says and
    leaves [written] in its report file, or removes the file when there
    is nothing to write. The importer is told apart by its [-o] option
    in third place. *)

Definition demo_expanduser (p : str) : str :=
  match p with
  | c :: r => if c =? 0x7E then py "/home/user" ++ r else p
  | [] => []
  end.

Definition demo_run (downloader importer : completed_process) (written : option str)
    (cmd : list str) (env : gmap str str) (files : gmap str node)
  : option (completed_process * gmap str node) :=
  match cmd with
  | _ :: _ :: opt :: path :: _ =>
      if bool_decide (opt = py "-o")
      then Some (importer,
                 match written with
                 | Some text => <[path := File text]> files
                 | None => delete path files
                 end)
      else Some (downloader, files)
  | _ => None
  end.

Definition temp_path : str := py "/tmp/tmpk3v9x2.json".

Definition demo_host (downloader importer : completed_process) (written : option str)
  : host :=
  Host demo_expanduser
       (demo_run downloader importer written)
       (λ _, Some temp_path)
       (λ d files, Some (<[d := Directory]> files))
       (py "2025-09-15T12:00:00").

Definition demo_world : world :=
  World {[ py ".env" := File (py "POHODA_URL = http://localhost " ++ [0x0A]) ]}
        {[ py "HOME" := py "/home/user" ]} [] [].

Definition demo_args : arguments :=
  Arguments (py "2025-09-01") (py "2025-09-15") DEFAULT_OUTPUT_DIR
            (py "http://localhost") (py "secret").

Definition exited (code : Z) (out : str) : completed_process :=
  CompletedProcess code out (py "").

(** The downloader report of the example in the description. *)
Definition example_stdout : str :=
  pyq "{'artifacts':{'processed_files':['Processed /tmp/a.abo: ok']}}".

Definition example_report : json :=
  JObj [(py "artifacts",
         JObj [(py "processed_files",
                JArr [JStr (py "Processed /tmp/a.abo: ok")])])].

Definition success_report : json :=
  JObj [(py "status", JStr (py "success")); (py "message", JStr (py "done"))].

(** The text of the importer report of the successful scenario. *)
Definition success_text : str := pyq "{'status':'success','message':'done'}".

(** Both programs succeed. *)
Definition success_host : host :=
  demo_host (exited 0 example_stdout) (exited 0 (py "")) (Some success_text).

(** The downloader fails although it printed a report. *)
Definition download_failure_host : host :=
  demo_host (exited 1 example_stdout) (exited 0 (py "")) (Some success_text).

(** The downloader succeeds and prints a JSON array. *)
Definition array_host : host :=
  demo_host (exited 0 (py "[]")) (exited 0 (py "")) (Some success_text).

(** The downloader succeeds and reports no processed file. *)
Definition empty_list_host : host :=
  demo_host (exited 0 (pyq "{'artifacts':{'processed_files':[]}}"))
            (exited 0 (py "")) (Some success_text).

(** Both programs succeed; the report of the importer is a JSON string
    of one character, a surrogate written as an escape. *)
Definition surrogate_text : str := pyq "'\ud83d'".

Definition surrogate_report_host : host :=
  demo_host (exited 0 example_stdout) (exited 0 (py "")) (Some surrogate_text).

(** The downloader succeeds, the importer fails. *)
Definition import_failure_host : host :=
  demo_host (exited 0 example_stdout) (exited 3 (py "")) None.

(** ** Two readings that the code does not bear out, as propositions *)

(** Every JSON text on the standard output of a downloader that exited
    with status zero yields a list of files and the parsed report. *)
Definition every_json_report_accepted : Prop :=
  ∀ (h : host) (from_date to_date output_dir : str) (w : world)
    (overlay : gmap str str) (result : completed_process)
    (files' : gmap str node) (report : json),
    load_env_file (py ".env") (fs w) = Some overlay →
    subprocess_run h (downloader_cmd h output_dir) (overlay ∪ environ w) (fs w)
      = Some (result, files') →
    returncode result = 0%Z →
    json_loads (stdout result) = Some report →
    ∃ files, (download_statements h from_date to_date output_dir w).1
             = (Some files, Some report).

(** Every report file with JSON text in it, left by an importer that
    exited with status zero, comes back parsed with its path. *)
Definition every_json_report_file_returned : Prop :=
  ∀ (h : host) (statement_file : list str) (url token : str) (w : world)
    (report_path : str) (overlay : gmap str str)
    (result : completed_process) (files' : gmap str node)
    (text : str) (report : json),
    named_temporary_file h (fs w) = Some report_path →
    load_env_file (py ".env") (<[report_path := File []]> (fs w)) = Some overlay →
    subprocess_run h (importer_cmd h report_path statement_file)
      (overlay ∪ environ w) (<[report_path := File []]> (fs w))
      = Some (result, files') →
    returncode result = 0%Z →
    files' !! report_path = Some (File text) →
    json_loads (universal_newlines text) = Some report →
    (import_statement_to_pohoda h statement_file url token w).1
    = (Some report, Some report_path).

(** The mapping holds one entry for each line that counts. *)
Definition one_entry_per_line : Prop :=
  ∀ (env_path : str) (files : gmap str node) (text : str),
    files !! env_path = Some (File text) →
    ∃ m, load_env_file env_path files = Some m
         ∧ map_to_list m ≡ₚ env_entries (file_lines text).

(** The value of the last entry that has the key. *)
Definition last_value (k : str) (entries : list (str * str)) : option str :=
  snd <$> List.find (λ e, bool_decide (e.1 = k)) (reverse entries).

(** An environment file that sets one variable twice. *)
Definition duplicate_text : str :=
  py "A=1" ++ [0x0A] ++ py "A=2" ++ [0x0A].

(** White space only. *)
Definition spaces (s : str) : Prop := Forall (λ c, isspace c = true) s.

(** No white space at either end. *)
Definition trimmed (s : str) : Prop :=
  (∀ c, head s = Some c → isspace c = false)
  ∧ (∀ c, last s = Some c → isspace c = false).

(** ** Further vocabulary for the properties *)

(** A report that the downloader adapter can use: an object whose
    [artifacts], when present, is an object, and whose [processed_files]
    in it, when present, can be iterated and yields strings only. *)
Definition usable_report (report : json) : Prop :=
  ∃ (members artifacts : dict) (entries : list json),
    report = JObj members
    ∧ default (JObj []) (dict_get (py "artifacts") members) = JObj artifacts
    ∧ iterate (default (JArr []) (dict_get (py "processed_files") artifacts))
      = Some entries
    ∧ Forall is_string entries.

(** The entry that the downloader writes for a path, with the text
    that follows the colon. *)
Definition processed_entry (path rest : str) : json :=
  JStr (py "Processed " ++ path ++ 0x3A :: rest).

(** What a run has printed: the lines of the console of [w'] that were
    not yet on the console of [w]. *)
Definition printed_since (w w' : world) : list (stream * message) :=
  drop (length (console w)) (console w').

(** The reports among printed lines. *)
Definition reports (lines : list (stream * message)) : list json :=
  omap (λ line, match line.2 with
                | Dumps report => Some report
                | _ => None
                end) lines.

(** One line of an environment file for a key and a value. *)
Definition env_line (k v : str) : str := k ++ [0x3D] ++ v ++ [0x0A].

(** The file with one such line for each pair. *)
Definition render_env (pairs : list (str * str)) : str :=
  concat ((λ kv, env_line kv.1 kv.2) <$> pairs).

(** No line break inside. *)
Definition one_line (s : str) : Prop := (0x0A ∉ s) ∧ (0x0D ∉ s).

(** A key that a line of the file can carry as it is: trimmed, on one
    line, without equals sign and not starting a comment. *)
Definition plain_key (k : str) : Prop :=
  trimmed k ∧ one_line k ∧ (0x3D ∉ k) ∧ head k ≠ Some 0x23.

(** A value that a line of the file can carry as it is. *)
Definition plain_value (v : str) : Prop := trimmed v ∧ one_line v.

(** A text that is empty or ends with a line feed. *)
Definition ends_lines (text : str) : Prop :=
  text = [] ∨ last text = Some 0x0A.

(** Hosts whose importer exits with status zero and leaves a report
    that is JSON: one that tells of an error, an empty object, and a
    list. *)
Definition reported_error_host : host :=
  demo_host (exited 0 example_stdout) (exited 0 (py ""))
            (Some (pyq "{'status':'error','message':'nothing imported'}")).

Definition empty_report_host : host :=
  demo_host (exited 0 example_stdout) (exited 0 (py "")) (Some (py "{}")).

Definition list_report_host : host :=
  demo_host (exited 0 example_stdout) (exited 0 (py "")) (Some (py "[1]")).

(** A world in which the environment file is a directory. *)
Definition env_directory_world : world :=
  World {[ py ".env" := Directory ]} {[ py "HOME" := py "/home/user" ]} [] [].

(** A host whose importer exits with status zero and writes nothing. *)
Definition silent_importer_host : host :=
  demo_host (exited 0 example_stdout) (exited 0 (py "")) (Some (py "")).

(** * Properties *)

(** ** Examples *)

Example json_loads_scalars :
  json_loads (py " [1, -2.50e-3, -0, 0.0, 1E5, true, false, null, NaN, -Infinity] ")
  = Some (JArr [JInt 1; JFloat (FDec true 250 (-5)); JInt 0;
                JFloat (FDec false 0 (-1)); JFloat (FDec false 1 5);
                JBool true; JBool false; JNull; JFloat FNaN;
                JFloat (FInf true)]).
Proof. by vm_compute. Qed.

Example json_loads_duplicate_key :
  json_loads (pyq "{'a': 1, 'b': 2, 'a': 3}")
  = Some (JObj [(py "a", JInt 3); (py "b", JInt 2)]).
Proof. by vm_compute. Qed.

Example json_loads_escapes :
  json_loads (pyq "'a\n\u0041\ud83d\uDE00\ud83dx'")
  = Some (JStr [0x61; 0x0A; 0x41; 0x1F600; 0xD83D; 0x78]).
Proof. by vm_compute. Qed.

Example json_loads_rejects :
  json_loads <$> [py ""; py "01"; py "1."; py "-"; py "[1,]"; py "[1 2]";
                  pyq "{'a' 1}"; pyq "{a: 1}"; pyq "'\x'"; py "tru";
                  py "[] []"; [0xFEFF; 0x31]]
  = replicate 12 None.
Proof. by vm_compute. Qed.

Example json_loads_nested :
  json_loads (py "[[[[[[[[[[1]]]]]]]]]]")
  = Some (JArr [JArr [JArr [JArr [JArr [JArr [JArr [JArr [JArr [JArr
            [JInt 1]]]]]]]]]]).
Proof. by vm_compute. Qed.

Example truthy_numbers :
  truthy <$> [JInt 0; JInt (-1); JFloat (FDec false 0 0);
              JFloat (FDec true 0 (-1)); JFloat (FDec false 1 (-400));
              JFloat (FDec false 5 (-324)); JFloat FNaN; JNull; JStr [];
              JArr []; JObj []; JArr [JNull]]
  = [false; true; false; false; false; true; true; false; false; false;
     false; true].
Proof. by vm_compute. Qed.

Example re_search_examples :
  re_search_processed <$>
    [py "Processed /tmp/a.abo: ok"; py "Processed :Processed a b:c:";
     py "xxProcessed  a::"; py "Processed /tmp/a.abo"; py "Processed :";
     py "processed a:"; py ""]
  = [Some (py "/tmp/a.abo"); Some (py "a b"); Some (py " a"); None; None;
     None; None].
Proof. by vm_compute. Qed.

Example load_env_file_example :
    load_env_file (py ".env")
      {[ py ".env" :=
           File (py "# comment" ++ [0x0D; 0x0A] ++ py "  KEY = a = b  " ++ [0x0A]
                 ++ [0x0A] ++ py "novalue" ++ [0x0D] ++ py " #X=1" ++ [0x0A]
                 ++ py "=v") ]}
  = Some {[ py "KEY" := py "a = b"; py "" := py "v" ]}.
Proof. by vm_compute. Qed.

(** ** The parser and its fuel *)

Lemma skip_ws_length (s : str) : (length (skip_ws s) ≤ length s)%nat.
Proof.
  induction s as [|c r IH]; [done|]. cbn. destruct (json_ws c); cbn; lia.
Qed.

Lemma span_digits_length (s ds r : str) :
  span_digits s = (ds, r) → (length r ≤ length s)%nat.
Proof.
  revert ds r. induction s as [|c s IH]; intros ds r; cbn.
  - by intros [= <- <-].
  - destruct (is_digit c); [|by intros [= <- <-]].
    destruct (span_digits s) as [ds' r'] eqn:Hspan. intros [= <- <-].
    specialize (IH _ _ eq_refl). lia.
Qed.

Lemma startswith_length (p s : str) :
  startswith p s = true → (length p ≤ length s)%nat.
Proof.
  revert s. induction p as [|a p IH]; intros [|b s]; cbn; try done; [lia|].
  intros [_ Hrest]%andb_true_iff. specialize (IH _ Hrest). lia.
Qed.

Lemma scanstring_length (s acc x r : str) :
  scanstring s acc = Some (x, r) → (length r < length s)%nat.
Proof.
  remember (length s) as n eqn:Hn.
  assert (length s ≤ n)%nat as Hle by lia. clear Hn.
  revert s acc Hle. induction n as [|n IH]; intros s acc Hle Hscan.
  - destruct s; [done|cbn in Hle; lia].
  - destruct s as [|c s]; [done|]. cbn [scanstring] in Hscan.
    cbn [length] in Hle.
    repeat case_match; simplify_eq; cbn [length] in *;
      try lia;
      match goal with
      | H : scanstring _ _ = Some _ |- _ =>
          apply IH in H; cbn [length] in *; lia
      end.
Qed.

Lemma scan_minus_length (s : str) :
  (length (scan_minus s).2 ≤ length s)%nat.
Proof. destruct s as [|c r]; [done|]. cbn. case_match; cbn; lia. Qed.

Lemma scan_integer_length (s ip r : str) :
  scan_integer s = Some (ip, r) → (length r < length s)%nat.
Proof.
  unfold scan_integer. intros Hint.
  repeat case_match; simplify_eq;
    repeat match goal with
           | H : span_digits _ = _ |- _ => apply span_digits_length in H
           end;
    cbn [length] in *; lia.
Qed.

Lemma scan_fraction_length (s : str) :
  (length (scan_fraction s).2 ≤ length s)%nat.
Proof.
  unfold scan_fraction.
  repeat case_match; simplify_eq;
    repeat match goal with
           | H : span_digits _ = _ |- _ => apply span_digits_length in H
           end;
    cbn [length snd] in *; lia.
Qed.

Lemma scan_exponent_length (s : str) :
  (length (scan_exponent s).2 ≤ length s)%nat.
Proof.
  unfold scan_exponent.
  repeat case_match; simplify_eq;
    repeat match goal with
           | H : span_digits _ = _ |- _ => apply span_digits_length in H
           end;
    cbn [length snd] in *; lia.
Qed.

Lemma match_number_length (s : str) (v : json) (r : str) :
  match_number s = Some (v, r) → (length r < length s)%nat.
Proof.
  unfold match_number. intros Hnum.
  pose proof (scan_minus_length s) as Hminus.
  destruct (scan_minus s) as [neg s1].
  destruct (scan_integer s1) as [[ip s2]|] eqn:Hint; [|done].
  apply scan_integer_length in Hint.
  pose proof (scan_fraction_length s2) as Hfrac.
  destruct (scan_fraction s2) as [frac s3].
  pose proof (scan_exponent_length s3) as Hexp.
  destruct (scan_exponent s3) as [exp s4].
  cbn [snd] in *.
  assert (r = s4) as -> by (by destruct frac, exp; simplify_eq).
  lia.
Qed.

Lemma drop_startswith_length (p s : str) :
  p ≠ [] → startswith p s = true →
  (length (drop (length p) s) < length s)%nat.
Proof.
  intros Hp Hs%startswith_length. rewrite length_drop.
  destruct p; [done|]. cbn [length] in *. lia.
Qed.

(** What a scan leaves is shorter than what it was given. *)
Lemma scan_rest_shorter (n : nat) :
  (∀ s v r, scan_once n s = Some (v, r) → (length r < length s)%nat)
  ∧ (∀ s acc v r, array_items n s acc = Some (v, r) → (length r < length s)%nat)
  ∧ (∀ s acc v r, object_items n s acc = Some (v, r) → (length r < length s)%nat).
Proof.
  induction n as [|n (IHscan & IHarray & IHobject)]; [done|].
  split; [|split].
  - intros s v r Hscan. cbn [scan_once] in Hscan.
    destruct s as [|c s]; [done|].
    repeat case_match; simplify_eq;
      repeat match goal with
             | H : scanstring _ _ = Some _ |- _ => apply scanstring_length in H
             | H : match_number _ = Some _ |- _ => apply match_number_length in H
             | H : object_items n _ _ = Some _ |- _ => apply IHobject in H
             | H : array_items n _ _ = Some _ |- _ => apply IHarray in H
             | H : skip_ws ?t = _ :: _ |- _ =>
                 pose proof (skip_ws_length t); rewrite H in *; clear H
             | H : startswith ?p _ = true |- _ =>
                 apply (drop_startswith_length p) in H; [|done]
             end;
      try assumption; cbn [length] in *; lia.
  - intros s acc v r Harr. cbn [array_items] in Harr.
    repeat case_match; simplify_eq;
      repeat match goal with
             | H : scan_once n _ = Some _ |- _ => apply IHscan in H
             | H : array_items n _ _ = Some _ |- _ => apply IHarray in H
             | H : skip_ws ?t = _ :: _ |- _ =>
                 pose proof (skip_ws_length t); rewrite H in *; clear H
             | |- context [skip_ws ?t] => pose proof (skip_ws_length t)
             | H : context [skip_ws ?t] |- _ =>
                 lazymatch goal with
                 | _ : (length (skip_ws t) ≤ _)%nat |- _ => fail
                 | _ => pose proof (skip_ws_length t)
                 end
             end;
      cbn [length] in *; lia.
  - intros s acc v r Hobj. cbn [object_items] in Hobj.
    repeat case_match; simplify_eq;
      repeat match goal with
             | H : scanstring _ _ = Some _ |- _ => apply scanstring_length in H
             | H : scan_once n _ = Some _ |- _ => apply IHscan in H
             | H : object_items n _ _ = Some _ |- _ => apply IHobject in H
             | H : skip_ws ?t = _ :: _ |- _ =>
                 pose proof (skip_ws_length t); rewrite H in *; clear H
             | H : context [skip_ws ?t] |- _ =>
                 lazymatch goal with
                 | _ : (length (skip_ws t) ≤ _)%nat |- _ => fail
                 | _ => pose proof (skip_ws_length t)
                 end
             end;
      cbn [length] in *; lia.
Qed.

Lemma scan_once_length (n : nat) (s : str) (v : json) (r : str) :
  scan_once n s = Some (v, r) → (length r < length s)%nat.
Proof. apply scan_rest_shorter. Qed.

Ltac note_skip_ws t :=
  lazymatch goal with
  | _ : (length (skip_ws t) ≤ length t)%nat |- _ => fail
  | _ => pose proof (skip_ws_length t)
  end.

Ltac lengths :=
  repeat match goal with
         | H : scanstring _ _ = Some _ |- _ => apply scanstring_length in H
         | H : scan_once _ _ = Some _ |- _ => apply scan_once_length in H
         | H : skip_ws ?t = _ :: _ |- _ =>
             pose proof (skip_ws_length t); rewrite H in *; clear H
         | |- context [skip_ws ?t] => note_skip_ws t
         | H : context [length (skip_ws ?t)] |- _ => note_skip_ws t
         end;
  cbn [length] in *; lia.

(** Past a bound that depends on the length of the text alone, more fuel
    does not change what a scan returns. *)
Lemma scan_fuel_stable (n : nat) :
  (∀ s m, (2 * length s + 1 ≤ n)%nat → (n ≤ m)%nat →
          scan_once n s = scan_once m s)
  ∧ (∀ s acc m, (2 * length s + 2 ≤ n)%nat → (n ≤ m)%nat →
                array_items n s acc = array_items m s acc)
  ∧ (∀ s acc m, (2 * length s + 2 ≤ n)%nat → (n ≤ m)%nat →
                object_items n s acc = object_items m s acc).
Proof.
  induction n as [|n (IHscan & IHarray & IHobject)].
  { repeat split; intros; lia. }
  split; [|split].
  - intros s [|m] Hfuel Hle; [lia|]. cbn [scan_once].
    destruct s as [|c s]; [done|].
    destruct (c =? 34); [done|].
    destruct (c =? 123).
    { destruct (skip_ws s) as [|c' r'] eqn:Hws; [done|].
      destruct (c' =? 125); [done|]. destruct (c' =? 34); [|done].
      apply IHobject; lengths. }
    destruct (c =? 91); [|done].
    destruct (skip_ws s) as [|c' r'] eqn:Hws; [done|].
    destruct (c' =? 93); [done|].
    apply IHarray; lengths.
  - intros s acc [|m] Hfuel Hle; [lia|]. cbn [array_items].
    rewrite (IHscan s m) by lia.
    destruct (scan_once m s) as [[v r]|] eqn:Hscan; [|done].
    destruct (skip_ws r) as [|c r'] eqn:Hws; [done|].
    destruct (c =? 93); [done|]. destruct (c =? 44); [|done].
    apply IHarray; lengths.
  - intros s acc [|m] Hfuel Hle; [lia|]. cbn [object_items].
    destruct (scanstring s []) as [[key r]|] eqn:Hkey; [|done].
    destruct (skip_ws r) as [|c r1] eqn:Hws; [done|].
    destruct (c =? 58); [|done].
    rewrite (IHscan (skip_ws r1) m) by lengths.
    destruct (scan_once m (skip_ws r1)) as [[v r2]|] eqn:Hscan; [|done].
    destruct (skip_ws r2) as [|c' r3] eqn:Hws2; [done|].
    destruct (c' =? 125); [done|]. destruct (c' =? 44); [|done].
    destruct (skip_ws r3) as [|q r4] eqn:Hws3; [done|].
    destruct (q =? 34); [|done].
    apply IHobject; lengths.
Qed.

(** The fuel that [json_loads] supplies is past the bound: with any
    larger amount the scan of the text returns the same. *)
Lemma json_loads_fuel (s : str) (m : nat) :
  (S (2 * length s) ≤ m)%nat →
  scan_once m (skip_ws s) = scan_once (S (2 * length s)) (skip_ws s).
Proof.
  intros Hm. symmetry. apply scan_fuel_stable; [|done].
  pose proof (skip_ws_length s). lia.
Qed.

(** ** The downloader adapter *)

Section Downloader.

Variable h : host.
Variables from_date to_date output_dir : str.
Variable w : world.
Variable overlay : gmap str str.
Variable result : completed_process.
Variable files' : gmap str node.

(** The external downloader was started and ended with [result]. *)
Hypothesis Henv : load_env_file (py ".env") (fs w) = Some overlay.
Hypothesis Hrun :
  subprocess_run h (downloader_cmd h output_dir) (overlay ∪ environ w) (fs w)
  = Some (result, files').

Lemma download_statements_ran :
  (download_statements h from_date to_date output_dir w).1 =
  if bool_decide (returncode result ≠ 0%Z) then (None, None)
  else match read_downloader_report (stdout result) with
       | Some (files, report) => (Some files, Some report)
       | None => (None, None)
       end.
Proof.
  unfold download_statements, run. rewrite Henv. cbn [fs record_call].
  rewrite Hrun. case_bool_decide; [done|].
  by destruct (read_downloader_report (stdout result)) as [[files report]|].
Qed.

End Downloader.

Lemma extract_files_strings (entries : list json) (acc : list str) :
  Forall is_string entries →
  extract_files entries acc = Some (acc ++ extracted_paths entries).
Proof.
  intros Hall. revert acc.
  induction Hall as [|entry entries Hentry _ IH]; intros acc; cbn.
  - by rewrite app_nil_r.
  - destruct entry; try done. cbn.
    destruct (re_search_processed s) as [g|]; [|apply IH].
    rewrite IH. by rewrite <- app_assoc.
Qed.

(** C6. A downloader that exits with a status other than zero makes the
    adapter return the failure pair, no list of files and no report,
    whatever it wrote on its standard output. *)
Theorem download_nonzero_exit
    (h : host) (from_date to_date output_dir : str) (w : world)
    (overlay : gmap str str) (result : completed_process)
    (files' : gmap str node) :
  load_env_file (py ".env") (fs w) = Some overlay →
  subprocess_run h (downloader_cmd h output_dir) (overlay ∪ environ w) (fs w)
    = Some (result, files') →
  returncode result ≠ 0%Z →
  (download_statements h from_date to_date output_dir w).1 = (None, None).
Proof.
  intros Henv Hrun Hcode.
  rewrite (download_statements_ran h from_date to_date output_dir w _ _ _ Henv Hrun).
  by rewrite bool_decide_eq_true_2.
Qed.

(** C4, as amended. When the downloader exits with status zero and its
    standard output parses as a JSON object whose [artifacts] member, if
    there is one, is an object, and whose [processed_files] member in
    it, if there is one, can be iterated and yields strings only, the
    adapter returns the paths that the entries contribute, in order
    (none for an entry without a match), with the whole parsed report. *)
Theorem download_valid_report
    (h : host) (from_date to_date output_dir : str) (w : world)
    (overlay : gmap str str) (result : completed_process)
    (files' : gmap str node)
    (report artifacts : dict) (processed : json) (entries : list json) :
  load_env_file (py ".env") (fs w) = Some overlay →
  subprocess_run h (downloader_cmd h output_dir) (overlay ∪ environ w) (fs w)
    = Some (result, files') →
  returncode result = 0%Z →
  json_loads (stdout result) = Some (JObj report) →
  default (JObj []) (dict_get (py "artifacts") report) = JObj artifacts →
  default (JArr []) (dict_get (py "processed_files") artifacts) = processed →
  iterate processed = Some entries →
  Forall is_string entries →
  (download_statements h from_date to_date output_dir w).1
  = (Some (extracted_paths entries), Some (JObj report)).
Proof.
  intros Henv Hrun Hcode Hjson Hart Hproc Hiter Hstr.
  rewrite (download_statements_ran h from_date to_date output_dir w _ _ _ Henv Hrun).
  rewrite bool_decide_eq_false_2 by (intros Hne; by apply Hne).
  unfold read_downloader_report. rewrite Hjson.
  cbn [mbind option_bind get_method]. rewrite Hart.
  cbn [mbind option_bind get_method]. rewrite Hproc, Hiter.
  cbn [mbind option_bind].
  by rewrite (extract_files_strings entries [] Hstr).
Qed.

(** C5. The example of the description: on that standard output the
    adapter returns the one path and the parsed report. *)
Theorem download_example
    (h : host) (from_date to_date output_dir : str) (w : world)
    (overlay : gmap str str) (result : completed_process)
    (files' : gmap str node) :
  load_env_file (py ".env") (fs w) = Some overlay →
  subprocess_run h (downloader_cmd h output_dir) (overlay ∪ environ w) (fs w)
    = Some (result, files') →
  returncode result = 0%Z →
  stdout result = example_stdout →
  json_loads example_stdout = Some example_report
  ∧ (download_statements h from_date to_date output_dir w).1
    = (Some [py "/tmp/a.abo"], Some example_report).
Proof.
  intros Henv Hrun Hcode Hout. split; [by vm_compute|].
  rewrite (download_statements_ran h from_date to_date output_dir w _ _ _ Henv Hrun).
  rewrite bool_decide_eq_false_2 by (intros Hne; by apply Hne).
  rewrite Hout. by vm_compute.
Qed.

Lemma download_nonzero_exit_witness :
  returncode (exited 1 example_stdout) ≠ 0%Z
  ∧ (download_statements download_failure_host
       (py "2025-09-01") (py "2025-09-15") (py "statements") demo_world).1
    = (None, None).
Proof.
  split; [done|].
  eapply (download_nonzero_exit download_failure_host _ _ _ demo_world);
    [reflexivity | reflexivity | done].
Defined.

Lemma download_valid_report_witness :
  json_loads example_stdout = Some example_report
  ∧ (download_statements success_host
       (py "2025-09-01") (py "2025-09-15") (py "statements") demo_world).1
    = (Some [py "/tmp/a.abo"], Some example_report).
Proof.
  split; [by vm_compute|].
  eapply (download_valid_report success_host _ _ _ demo_world _ _ _ _ _ _
            [JStr (py "Processed /tmp/a.abo: ok")]);
    [reflexivity | reflexivity | reflexivity | by vm_compute
    | reflexivity | reflexivity | reflexivity | by repeat constructor].
Defined.

Lemma download_example_witness :
  stdout (exited 0 example_stdout) = example_stdout
  ∧ (download_statements success_host
       (py "2025-09-01") (py "2025-09-15") (py "statements") demo_world).1
    = (Some [py "/tmp/a.abo"], Some example_report).
Proof.
  split; [done|].
  eapply (download_example success_host _ _ _ demo_world);
    [reflexivity | reflexivity | reflexivity | reflexivity].
Defined.

(** C4, as it was stated, fails: a downloader that exits with status
    zero and prints the JSON text of an empty array gets the failure
    pair from the adapter. *)
Lemma download_json_array_rejected :
  returncode (exited 0 (py "[]")) = 0%Z
  ∧ json_loads (stdout (exited 0 (py "[]"))) = Some (JArr [])
  ∧ (download_statements array_host
       (py "2025-09-01") (py "2025-09-15") (py "statements") demo_world).1
    = (None, None)
  ∧ ¬ every_json_report_accepted.
Proof.
  split; [done|]. split; [by vm_compute|]. split; [by vm_compute|].
  intros Hclaim.
  destruct (Hclaim array_host (py "2025-09-01") (py "2025-09-15")
              (py "statements") demo_world _ (exited 0 (py "[]")) _ (JArr [])
              eq_refl eq_refl eq_refl eq_refl) as [files Hfiles].
  vm_compute in Hfiles. discriminate Hfiles.
Qed.

(** ** The importer adapter *)

(** C7, as amended. After an importer that exited with status zero,
    the adapter returns the failure pair when the report file is gone
    or its text is not JSON, and the parsed report with the path of the
    file when the text is JSON and the report can be written to the
    standard output, which every report can that is not a string with a
    surrogate in it; a report that cannot be written gives the failure
    pair as well. *)
Theorem import_report_file
    (h : host) (statement_file : list str) (url token : str) (w : world)
    (report_path : str) (overlay : gmap str str)
    (result : completed_process) (files' : gmap str node) :
  named_temporary_file h (fs w) = Some report_path →
  load_env_file (py ".env") (<[report_path := File []]> (fs w)) = Some overlay →
  subprocess_run h (importer_cmd h report_path statement_file)
    (overlay ∪ environ w) (<[report_path := File []]> (fs w))
    = Some (result, files') →
  returncode result = 0%Z →
  let returned := (import_statement_to_pohoda h statement_file url token w).1 in
  (files' !! report_path = None → returned = (None, None))
  ∧ (∀ text, files' !! report_path = Some (File text) →
             json_loads (universal_newlines text) = None →
             returned = (None, None))
  ∧ (∀ text report, files' !! report_path = Some (File text) →
                    json_loads (universal_newlines text) = Some report →
                    import_result_prints report = true →
                    returned = (Some report, Some report_path))
  ∧ (∀ text report, files' !! report_path = Some (File text) →
                    json_loads (universal_newlines text) = Some report →
                    import_result_prints report = false →
                    returned = (None, None))
  ∧ (∀ report, (∀ s, report ≠ JStr s) → import_result_prints report = true).
Proof.
  intros Htmp Henv Hrun Hcode returned. subst returned.
  unfold import_statement_to_pohoda, run. rewrite Htmp.
  cbn [fs set_fs record_call environ]. rewrite Henv.
  cbn [fs set_fs record_call environ]. rewrite Hrun.
  rewrite bool_decide_eq_false_2 by (intros Hne; by apply Hne).
  cbn [fs set_fs].
  split; [|split; [|split; [|split]]].
  - intros ->. done.
  - intros text -> ->. done.
  - intros text report -> -> ->. done.
  - intros text report -> -> ->. done.
  - intros report Hstring. destruct report; try done. by destruct (Hstring s).
Qed.

Lemma import_report_file_witness :
  returncode (exited 0 (py "")) = 0%Z
  ∧ json_loads (universal_newlines success_text) = Some success_report
  ∧ import_result_prints success_report = true
  ∧ (import_statement_to_pohoda success_host [py "/tmp/a.abo"]
       (py "http://localhost") (py "secret") demo_world).1
    = (Some success_report, Some temp_path).
Proof.
  split; [done|]. split; [by vm_compute|]. split; [done|].
  eapply (import_report_file success_host [py "/tmp/a.abo"] _ _ demo_world
            temp_path _ (exited 0 (py "")));
    [reflexivity | reflexivity | reflexivity | reflexivity
    | by vm_compute | by vm_compute | done].
Defined.

(** C7, as it was stated, fails: an importer that exits with status
    zero and leaves the JSON text of a string with a lone surrogate in
    its report file gets the failure pair from the adapter, because
    writing the parsed report to the standard output raises inside the
    block that reads it. *)
Lemma import_surrogate_report_rejected :
  returncode (exited 0 (py "")) = 0%Z
  ∧ json_loads (universal_newlines surrogate_text) = Some (JStr [0xD83D])
  ∧ (import_statement_to_pohoda surrogate_report_host [py "/tmp/a.abo"]
       (py "http://localhost") (py "secret") demo_world).1
    = (None, None)
  ∧ ¬ every_json_report_file_returned.
Proof.
  split; [done|]. split; [by vm_compute|]. split; [by vm_compute|].
  intros Hclaim.
  pose proof (Hclaim surrogate_report_host [py "/tmp/a.abo"]
                (py "http://localhost") (py "secret") demo_world temp_path _
                (exited 0 (py "")) _ surrogate_text (JStr [0xD83D])
                eq_refl eq_refl eq_refl eq_refl) as Hreturned.
  assert ((None, None) = (Some (JStr [0xD83D]), Some temp_path)) as Habsurd;
    [|discriminate Habsurd].
  rewrite <- Hreturned; [by vm_compute | by vm_compute | by vm_compute].
Qed.

(** C9. The address and the token of the accounting system do not reach
    anything the adapter does: two calls that differ in them only build
    the same command lines, leave the same world and return the same
    result. *)
Theorem credentials_not_observed
    (h : host) (statement_file : list str)
    (url token url' token' : str) (w : world) :
  let run1 := import_statement_to_pohoda h statement_file url token w in
  let run2 := import_statement_to_pohoda h statement_file url' token' w in
  run1.1 = run2.1 ∧ calls run1.2 = calls run2.2 ∧ run1 = run2.
Proof. by repeat split. Qed.

(** ** The orchestrator *)

Lemma final_report_print (report : json) (w : world) :
  final_report (print Stdout (Dumps report) w) = Some report.
Proof. unfold final_report, print. cbn [console]. by rewrite last_snoc. Qed.

(** The adapter of the downloader never returns a report without a list
    of files. *)
Lemma download_failure_no_report
    (h : host) (from_date to_date output_dir : str) (w : world) :
  (download_statements h from_date to_date output_dir w).1.1 = None →
  (download_statements h from_date to_date output_dir w).1.2 = None.
Proof.
  unfold download_statements.
  destruct (load_env_file _ _); [|done].
  destruct (run h _ _ w) as [[result|] w1]; [|done].
  case_bool_decide; [done|].
  by destruct (read_downloader_report _) as [[files report]|].
Qed.

(** Whatever happens in it, a call of the importer adapter prints one
    line, and that line is not a report of the run. *)
Lemma import_leaves_a_trace
    (h : host) (statement_file : list str) (url token : str) (w : world) :
  ∃ to m, console (import_statement_to_pohoda h statement_file url token w).2
          = console w ++ [(to, m)]
          ∧ ∀ report, m ≠ Dumps report.
Proof.
  unfold import_statement_to_pohoda, run.
  destruct (named_temporary_file h (fs w)) as [report_path|];
    [|by eexists _, _].
  cbn [fs set_fs record_call environ].
  destruct (load_env_file _ _) as [overlay|]; [|by eexists _, _].
  destruct (subprocess_run h _ _ _) as [[result files']|]; [|by eexists _, _].
  case_bool_decide; [by eexists _, _|].
  cbn [fs set_fs].
  destruct (files' !! report_path) as [[text|]|]; [|by eexists _, _..].
  destruct (json_loads _) as [report|]; [|by eexists _, _].
  destruct (import_result_prints report); by eexists _, _.
Qed.

Section Orchestrator.

Variable h : host.
Variable args : arguments.
Variable w : world.
Variable files1 : gmap str node.

(** The output directory could be made. *)
Hypothesis Hmakedirs : makedirs h (output_dir args) (fs w) = Some files1.

Let download :=
  download_statements h (from_date args) (to_date args) (output_dir args)
    (set_fs files1 w).

(** The branch of line 160: no file to import. *)
Lemma main_no_files (statement_files : option (list str))
    (downloader_report : option json) (w1 : world) :
  download = ((statement_files, downloader_report), w1) →
  truthy_files statement_files = false →
  main h args w =
  (SysExit 1,
   print Stdout
     (Dumps (JObj (add_downloader_report downloader_report
                     [(py "timestamp", JStr (now_isoformat h));
                      (py "artifacts", JObj []);
                      (py "metrics", JObj []);
                      (py "status", JStr (py "error"));
                      (py "message", JStr (py "Failed to download statement(s)."))])))
     w1).
Proof.
  intros Hdownload Hfiles. unfold main. rewrite Hmakedirs.
  fold download. rewrite Hdownload, Hfiles. reflexivity.
Qed.

(** The branches after line 167: some file to import. *)
Lemma main_some_files (files : list str) (downloader_report : option json)
    (w1 : world) :
  download = ((Some files, downloader_report), w1) →
  files ≠ [] →
  main h args w =
  let report := [(py "timestamp", JStr (now_isoformat h));
                 (py "artifacts",
                  JObj [(py "imported_statement", JArr (JStr <$> files))]);
                 (py "metrics", JObj [])] in
  let '((importer_report, importer_report_path), w2) :=
    import_statement_to_pohoda h files (pohoda_url args) (pohoda_token args) w1 in
  if negb (truthy_opt importer_report) then
    (SysExit 2,
     print Stdout
       (Dumps (JObj (add_downloader_report downloader_report
                       (report ++
                        [(py "status", JStr (py "error"));
                         (py "message",
                          JStr (py "Failed to import statement(s) to Pohoda."))]))))
       w2)
  else
    match importer_report with
    | Some ((JObj members) as importer_report) =>
        (Returned,
         print Stdout
           (Dumps (JObj
              (match downloader_report with
               | Some r => if truthy r
                           then set_artifact (py "downloader_report") r
                           else id
               | None => id
               end
                 [(py "timestamp", JStr (now_isoformat h));
                  (py "artifacts",
                   JObj [(py "imported_statement", JArr (JStr <$> files));
                         (py "importer_report", importer_report)]);
                  (py "metrics", JObj []);
                  (py "status",
                   default (JStr (py "success")) (dict_get (py "status") members));
                  (py "message",
                   default (JStr (py "Statement(s) successfully imported to Pohoda."))
                     (dict_get (py "message") members))])))
           w2)
    | _ => (Uncaught, w2)
    end.
Proof.
  intros Hdownload Hfiles. unfold main. rewrite Hmakedirs.
  fold download. rewrite Hdownload.
  destruct files as [|file files]; [done|].
  cbn [truthy_files negb default].
  destruct (import_statement_to_pohoda _ _ _ _ _) as [[importer_report path] w2].
  cbn zeta.
  destruct (negb (truthy_opt importer_report)); [reflexivity|].
  destruct importer_report as [[]|]; try reflexivity.
  destruct downloader_report as [r|]; [|reflexivity].
  destruct (truthy r); reflexivity.
Qed.

End Orchestrator.

(** C1. The successful run: when the downloader adapter returns a list
    of files that is not empty and the importer adapter returns the
    report with status success and message done, the run ends with exit
    code 0 and the report it prints last has that status and message,
    the list of files under [artifacts.imported_statement] and the
    report of the importer under [artifacts.importer_report]. *)
Theorem main_success
    (h : host) (args : arguments) (w w1 w2 : world) (files1 : gmap str node)
    (files : list str) (downloader_report : option json)
    (report_path : option str) :
  makedirs h (output_dir args) (fs w) = Some files1 →
  download_statements h (from_date args) (to_date args) (output_dir args)
    (set_fs files1 w) = ((Some files, downloader_report), w1) →
  files ≠ [] →
  import_statement_to_pohoda h files (pohoda_url args) (pohoda_token args) w1
    = ((Some success_report, report_path), w2) →
  exit_code (main h args w).1 = 0%Z
  ∧ ∃ report,
      final_report (main h args w).2 = Some report
      ∧ json_at [py "status"] report = Some (JStr (py "success"))
      ∧ json_at [py "message"] report = Some (JStr (py "done"))
      ∧ json_at [py "artifacts"; py "imported_statement"] report
        = Some (JArr (JStr <$> files))
      ∧ json_at [py "artifacts"; py "importer_report"] report
        = Some success_report.
Proof.
  intros Hmakedirs Hdownload Hfiles Himport.
  rewrite (main_some_files h args w files1 Hmakedirs files downloader_report w1
             Hdownload Hfiles).
  cbn zeta. rewrite Himport. cbn [success_report truthy_opt truthy negb].
  rewrite bool_decide_eq_false_2 by done. cbn [negb fst snd exit_code].
  split; [done|]. eexists. rewrite final_report_print. split; [done|].
  destruct downloader_report as [r|]; [destruct (truthy r)|];
    by repeat split.
Qed.

Lemma main_success_witness :
  [py "/tmp/a.abo"] ≠ []
  ∧ exit_code (main success_host demo_args demo_world).1 = 0%Z
  ∧ ∃ report,
      final_report (main success_host demo_args demo_world).2 = Some report
      ∧ json_at [py "status"] report = Some (JStr (py "success"))
      ∧ json_at [py "message"] report = Some (JStr (py "done"))
      ∧ json_at [py "artifacts"; py "imported_statement"] report
        = Some (JArr (JStr <$> [py "/tmp/a.abo"]))
      ∧ json_at [py "artifacts"; py "importer_report"] report
        = Some success_report.
Proof.
  split; [done|].
  eapply (main_success success_host demo_args demo_world _ _ _ [py "/tmp/a.abo"]);
    [reflexivity | by vm_compute | done | by vm_compute].
Defined.

(** C2, evaluated. The downloader reports one file, the importer exits
    with status 3. The run ends with exit code 2 and an error report
    about the import; the report of the downloader is in it, but as the
    member [downloader_report] of the report itself: [artifacts] has no
    such member. *)
Theorem import_failure_report_placement :
  (download_statements import_failure_host (from_date demo_args)
     (to_date demo_args) (output_dir demo_args)
     (set_fs (<[output_dir demo_args := Directory]> (fs demo_world)) demo_world)).1
  = (Some [py "/tmp/a.abo"], Some example_report)
  ∧ exit_code (main import_failure_host demo_args demo_world).1 = 2%Z
  ∧ ∃ report,
      final_report (main import_failure_host demo_args demo_world).2 = Some report
      ∧ json_at [py "status"] report = Some (JStr (py "error"))
      ∧ json_at [py "message"] report
        = Some (JStr (py "Failed to import statement(s) to Pohoda."))
      ∧ json_at [py "artifacts"; py "downloader_report"] report = None
      ∧ json_at [py "artifacts"] report
        = Some (JObj [(py "imported_statement", JArr [JStr (py "/tmp/a.abo")])])
      ∧ json_at [py "downloader_report"] report = Some example_report.
Proof.
  split; [by vm_compute|]. split; [by vm_compute|].
  eexists. split; [by vm_compute|]. by vm_compute.
Qed.

(** C3. The failed download: when the downloader adapter returns no
    list of files, the run ends with exit code 1; the report it prints
    last has status error and the message of the failed download, and
    the key [importer_report] occurs nowhere in it. The world after the
    run is the world after the download with that report printed: no
    further command was run and no file was made, so the importer
    adapter was not called. *)
Theorem main_download_failure
    (h : host) (args : arguments) (w : world) (files1 : gmap str node) :
  makedirs h (output_dir args) (fs w) = Some files1 →
  let download :=
    download_statements h (from_date args) (to_date args) (output_dir args)
      (set_fs files1 w) in
  download.1.1 = None →
  exit_code (main h args w).1 = 1%Z
  ∧ ∃ report,
      (main h args w).2 = print Stdout (Dumps report) download.2
      ∧ final_report (main h args w).2 = Some report
      ∧ json_at [py "status"] report = Some (JStr (py "error"))
      ∧ json_at [py "message"] report
        = Some (JStr (py "Failed to download statement(s)."))
      ∧ has_key (py "importer_report") report = false
      ∧ calls (main h args w).2 = calls download.2
      ∧ fs (main h args w).2 = fs download.2.
Proof.
  intros Hmakedirs download Hnone.
  pose proof (download_failure_no_report _ _ _ _ _ Hnone) as Hreport.
  fold download in Hreport.
  destruct download as [[statement_files downloader_report] w1] eqn:Hdownload.
  cbn in Hnone, Hreport. subst statement_files downloader_report.
  rewrite (main_no_files h args w files1 Hmakedirs None None w1 Hdownload eq_refl).
  cbn [fst snd add_downloader_report].
  split; [done|]. eexists. split; [done|].
  rewrite final_report_print. by repeat split.
Qed.

Lemma main_download_failure_witness :
  (download_statements download_failure_host (from_date demo_args)
     (to_date demo_args) (output_dir demo_args)
     (set_fs (<[output_dir demo_args := Directory]> (fs demo_world)) demo_world)).1.1
  = None
  ∧ exit_code (main download_failure_host demo_args demo_world).1 = 1%Z.
Proof.
  split; [by vm_compute|].
  eapply (main_download_failure download_failure_host demo_args demo_world);
    [reflexivity | by vm_compute].
Defined.

(** C10. The empty list of files: when the downloader adapter succeeds
    with an empty list, the test of line 160 gives what it gives for a
    failed download, and so does the run: exit code 1, a last report
    with status error and the message of the failed download, and a
    world that is the world after the download with that report
    printed, so without any call of the importer. *)
Theorem main_empty_file_list
    (h : host) (args : arguments) (w w1 : world) (files1 : gmap str node)
    (downloader_report : option json) :
  makedirs h (output_dir args) (fs w) = Some files1 →
  download_statements h (from_date args) (to_date args) (output_dir args)
    (set_fs files1 w) = ((Some [], downloader_report), w1) →
  truthy_files (Some []) = truthy_files None
  ∧ exit_code (main h args w).1 = 1%Z
  ∧ ∃ report,
      (main h args w).2 = print Stdout (Dumps report) w1
      ∧ final_report (main h args w).2 = Some report
      ∧ json_at [py "status"] report = Some (JStr (py "error"))
      ∧ json_at [py "message"] report
        = Some (JStr (py "Failed to download statement(s)."))
      ∧ calls (main h args w).2 = calls w1
      ∧ fs (main h args w).2 = fs w1.
Proof.
  intros Hmakedirs Hdownload. split; [done|].
  rewrite (main_no_files h args w files1 Hmakedirs (Some []) downloader_report w1
             Hdownload eq_refl).
  cbn [fst snd].
  split; [done|]. eexists. split; [done|].
  rewrite final_report_print.
  destruct downloader_report as [r|];
    [cbn [add_downloader_report]; destruct (truthy r)|];
    by repeat split.
Qed.

Lemma main_empty_file_list_witness :
  (download_statements empty_list_host (from_date demo_args)
     (to_date demo_args) (output_dir demo_args)
     (set_fs (<[output_dir demo_args := Directory]> (fs demo_world)) demo_world)).1.1
  = Some []
  ∧ exit_code (main empty_list_host demo_args demo_world).1 = 1%Z
  ∧ calls (main empty_list_host demo_args demo_world).2
    = [(downloader_cmd empty_list_host (output_dir demo_args),
        {[ py "POHODA_URL" := py "http://localhost" ]}
        ∪ environ demo_world)].
Proof.
  split; [by vm_compute|].
  destruct (main_empty_file_list empty_list_host demo_args demo_world
              _ _ _ eq_refl eq_refl) as (_ & Hcode & report & _ & _ & _ & _ & Hcalls & _).
  split; [exact Hcode|]. rewrite Hcalls. by vm_compute.
Defined.

(** ** The environment loader *)

(** *** Trimming *)

Lemma lstrip_spaces (ws s : str) : spaces ws → lstrip (ws ++ s) = lstrip s.
Proof.
  induction 1 as [|c ws Hc _ IH]; [done|]. cbn. by rewrite Hc.
Qed.

Lemma lstrip_id (s : str) :
  (∀ c, head s = Some c → isspace c = false) → lstrip s = s.
Proof.
  destruct s as [|c r]; [done|]. intros Hhead. cbn.
  by rewrite (Hhead c eq_refl).
Qed.

Lemma lstrip_decomp (s : str) :
  ∃ ws, s = ws ++ lstrip s ∧ spaces ws
        ∧ ∀ c, head (lstrip s) = Some c → isspace c = false.
Proof.
  induction s as [|c r (ws & Heq & Hws & Hhead)].
  - exists []. split; [done|]. split; [constructor | done].
  - cbn. destruct (isspace c) eqn:Hc.
    + exists (c :: ws). split; [by rewrite Heq at 1|].
      split; [by constructor | done].
    + exists []. split; [done|]. split; [constructor|].
      intros c' [= <-]. done.
Qed.

Lemma spaces_app (a b : str) : spaces (a ++ b) ↔ spaces a ∧ spaces b.
Proof. apply Forall_app. Qed.

Lemma strip_unique (ws1 t ws2 : str) :
  spaces ws1 → spaces ws2 → trimmed t → strip (ws1 ++ t ++ ws2) = t.
Proof.
  intros H1 H2 [Hhead Hlast]. unfold strip, rstrip.
  rewrite (lstrip_spaces ws1 _ H1).
  destruct t as [|c r].
  - cbn [app]. rewrite <- (app_nil_r ws2), (lstrip_spaces ws2 [] H2). done.
  - rewrite (lstrip_id ((c :: r) ++ ws2)) by (intros c' [= <-]; by apply Hhead).
    rewrite reverse_app, lstrip_spaces by by apply Forall_reverse.
    rewrite lstrip_id; [apply reverse_involutive|].
    intros c'. rewrite head_reverse. apply Hlast.
Qed.

Lemma strip_decomp (s : str) :
  ∃ ws1 ws2, s = ws1 ++ strip s ++ ws2 ∧ spaces ws1 ∧ spaces ws2
             ∧ trimmed (strip s).
Proof.
  destruct (lstrip_decomp s) as (ws1 & Heq1 & Hws1 & Hhead).
  destruct (lstrip_decomp (reverse (lstrip s))) as (ws & Heq2 & Hws & Hlast).
  assert (lstrip s = strip s ++ reverse ws) as Heq.
  { unfold strip, rstrip. rewrite <- reverse_app, <- Heq2.
    by rewrite reverse_involutive. }
  exists ws1, (reverse ws). split; [by rewrite <- Heq|].
  split; [done|]. split; [by apply Forall_reverse|]. split.
  - intros c Hc. apply Hhead. rewrite Heq.
    by destruct (strip s).
  - intros c. unfold strip, rstrip. rewrite last_reverse. apply Hlast.
Qed.

Lemma strip_spaces_l (ws s : str) : spaces ws → strip (ws ++ s) = strip s.
Proof.
  intros Hws. destruct (strip_decomp s) as (u1 & u2 & Heq & Hu1 & Hu2 & Ht).
  rewrite Heq at 1. rewrite app_assoc.
  apply strip_unique; [by apply spaces_app | done | done].
Qed.

Lemma strip_spaces_r (s ws : str) : spaces ws → strip (s ++ ws) = strip s.
Proof.
  intros Hws. destruct (strip_decomp s) as (u1 & u2 & Heq & Hu1 & Hu2 & Ht).
  rewrite Heq at 1. rewrite <- !app_assoc.
  apply strip_unique; [done | by apply spaces_app | done].
Qed.

Lemma strip_nil_iff (s : str) : strip s = [] ↔ spaces s.
Proof.
  split.
  - intros Hnil. destruct (strip_decomp s) as (u1 & u2 & Heq & Hu1 & Hu2 & _).
    rewrite Heq, Hnil. by apply spaces_app.
  - intros Hs. rewrite <- (app_nil_r s). rewrite <- (app_nil_l ([] : str)) at 1.
    apply strip_unique; [done | constructor | done].
Qed.

(** *** One line of the file *)

Lemma forallb_spaces (s : str) : forallb isspace s = true ↔ spaces s.
Proof.
  unfold spaces. induction s as [|c r IH]; cbn.
  - split; [constructor | done].
  - rewrite andb_true_iff, IH, Forall_cons. done.
Qed.

Lemma find_skips_spaces (ws s : str) :
  spaces ws →
  List.find (λ c, negb (isspace c)) (ws ++ s)
  = List.find (λ c, negb (isspace c)) s.
Proof. induction 1 as [|c ws Hc _ IH]; [done|]. cbn. by rewrite Hc. Qed.

Lemma contains_elem_of (c : N) (s : str) : contains c s = bool_decide (c ∈ s).
Proof.
  unfold contains. induction s as [|x r IH]; cbn.
  - by rewrite bool_decide_eq_false_2 by apply not_elem_of_nil.
  - rewrite IH. destruct (N.eqb_spec c x) as [->|Hne]; cbn.
    + by rewrite bool_decide_eq_true_2 by left.
    + apply bool_decide_ext. rewrite elem_of_cons. intuition congruence.
Qed.

Lemma spaces_not_elem_of (c : N) (ws : str) :
  isspace c = false → spaces ws → c ∉ ws.
Proof.
  intros Hc Hws Hin. unfold spaces in Hws. rewrite Forall_forall in Hws.
  specialize (Hws c Hin). congruence.
Qed.

Lemma split1_elem_of (c : N) (s : str) :
  c ∈ s → split1 c s = [before_first c s; after_first c s].
Proof.
  induction s as [|x r IH]; [by intros ?%elem_of_nil|].
  intros Hin. cbn. destruct (N.eqb_spec x c) as [->|Hne]; [done|].
  rewrite IH; [done|]. apply elem_of_cons in Hin as [->|]; done.
Qed.

Lemma before_first_app_l (c : N) (ws s : str) :
  c ∉ ws → before_first c (ws ++ s) = ws ++ before_first c s.
Proof.
  induction ws as [|x ws IH]; [done|]. intros Hnot. cbn.
  apply not_elem_of_cons in Hnot as [Hne Hnot].
  destruct (N.eqb_spec x c) as [->|_]; [done|]. by rewrite IH.
Qed.

Lemma before_first_app_r (c : N) (s ws : str) :
  c ∈ s → before_first c (s ++ ws) = before_first c s.
Proof.
  induction s as [|x r IH]; [by intros ?%elem_of_nil|].
  intros Hin. cbn. destruct (N.eqb_spec x c) as [->|Hne]; [done|].
  rewrite IH; [done|]. apply elem_of_cons in Hin as [->|]; done.
Qed.

Lemma after_first_app_l (c : N) (ws s : str) :
  c ∉ ws → after_first c (ws ++ s) = after_first c s.
Proof.
  induction ws as [|x ws IH]; [done|]. intros Hnot. cbn.
  apply not_elem_of_cons in Hnot as [Hne Hnot].
  destruct (N.eqb_spec x c) as [->|_]; [done|]. by rewrite IH.
Qed.

Lemma after_first_app_r (c : N) (s ws : str) :
  c ∈ s → after_first c (s ++ ws) = after_first c s ++ ws.
Proof.
  induction s as [|x r IH]; [by intros ?%elem_of_nil|].
  intros Hin. cbn. destruct (N.eqb_spec x c) as [->|Hne]; [done|].
  rewrite IH; [done|]. apply elem_of_cons in Hin as [->|]; done.
Qed.

(** The body of the loop does to the mapping what the contract says of
    the line it is given. *)
Lemma load_env_line_reference (m : gmap str str) (line : str) :
  load_env_line m line =
  if env_line_counts line
  then <[(env_entry line).1 := (env_entry line).2]> m
  else m.
Proof.
  unfold load_env_line, env_line_counts, env_entry. cbn [fst snd].
  destruct (strip_decomp line) as (ws1 & ws2 & Heq & H1 & H2 & [Hhead Hlast]).
  pose proof (strip_nil_iff line) as Hnil.
  destruct (strip line) as [|c r] eqn:Hs.
  - rewrite bool_decide_eq_true_2 by done.
    by rewrite (proj2 (forallb_spaces line)) by by apply Hnil.
  - rewrite bool_decide_eq_false_2 by done. cbn [orb].
    assert (isspace c = false) as Hc by by apply Hhead.
    assert (forallb isspace line = false) as ->.
    { apply not_true_iff_false. rewrite forallb_spaces, <- Hnil. done. }
    assert (List.find (λ c, negb (isspace c)) line = Some c) as ->.
    { rewrite Heq, find_skips_spaces by done. cbn. by rewrite Hc. }
    assert (isspace 0x3D = false) as Heqsign by done.
    assert (0x3D ∈ line ↔ 0x3D ∈ c :: r) as Hin.
    { rewrite Heq at 1. rewrite !elem_of_app.
      pose proof (spaces_not_elem_of _ _ Heqsign H1).
      pose proof (spaces_not_elem_of _ _ Heqsign H2). tauto. }
    rewrite contains_elem_of, <- (bool_decide_ext _ _ Hin).
    cbn [startswith py fmap list_fmap list_ascii_of_string N_of_ascii negb andb].
    change (N_of_digits _) with 0x23.
    destruct (N.eqb_spec 0x23 c) as [<-|Hne].
    + by rewrite (bool_decide_eq_true_2 (Some 0x23 = Some 0x23)).
    + rewrite (bool_decide_eq_false_2 (Some c = Some 0x23)) by congruence.
      cbn [negb andb].
      case_bool_decide as Hline; [|done].
      rewrite split1_elem_of by by apply Hin.
      f_equal.
      * rewrite Heq.
        rewrite before_first_app_l
          by by apply (spaces_not_elem_of _ _ Heqsign).
        rewrite before_first_app_r by by apply Hin.
        by rewrite strip_spaces_l.
      * rewrite Heq.
        rewrite after_first_app_l
          by by apply (spaces_not_elem_of _ _ Heqsign).
        rewrite after_first_app_r by by apply Hin.
        by rewrite strip_spaces_r.
Qed.

(** *** The whole file *)

Lemma foldl_load_env_line (lines : list str) (m : gmap str str) :
  foldl load_env_line m lines
  = foldl (λ m e, <[e.1 := e.2]> m) m (env_entries lines).
Proof.
  revert m. induction lines as [|line lines IH]; intros m; [done|].
  cbn [foldl]. rewrite IH, load_env_line_reference.
  unfold env_entries. cbn [List.filter].
  by destruct (env_line_counts line).
Qed.

Lemma foldl_insert_list_to_map (entries : list (str * str)) (m : gmap str str) :
  foldl (λ m e, <[e.1 := e.2]> m) m entries
  = list_to_map (reverse entries) ∪ m.
Proof.
  revert m. induction entries as [|[k v] entries IH]; intros m.
  - cbn. by rewrite (left_id_L ∅ (∪)).
  - cbn [foldl fst snd]. rewrite IH, reverse_cons, list_to_map_app.
    rewrite <- (assoc_L (∪)). f_equal. cbn.
    by rewrite insert_empty, <- insert_union_singleton_l.
Qed.

Lemma list_to_map_lookup_find (entries : list (str * str)) (k : str) :
  (list_to_map entries : gmap str str) !! k
  = snd <$> List.find (λ e, bool_decide (e.1 = k)) entries.
Proof.
  induction entries as [|[k' v] entries IH]; [done|].
  cbn. case_bool_decide as Hk.
  - subst k'. by rewrite lookup_insert_eq.
  - by rewrite lookup_insert_ne.
Qed.

(** C8, as amended. A file that does not exist gives the empty mapping.
    For a file that exists, the mapping has the keys of the lines that
    count (not blank, not a comment, with an equals sign), each with the
    value of the last such line that has the key, key and value being
    the two sides of the first equals sign, trimmed; when those lines
    have different keys, the entries of the mapping are exactly their
    entries, one for each line. *)
Theorem load_env_file_reference (env_path : str) (files : gmap str node) :
  (files !! env_path = None → load_env_file env_path files = Some ∅)
  ∧ (∀ text, files !! env_path = Some (File text) →
       ∃ m, load_env_file env_path files = Some m
            ∧ (∀ k, m !! k = last_value k (env_entries (file_lines text)))
            ∧ (NoDup (env_entries (file_lines text)).*1 →
               map_to_list m ≡ₚ env_entries (file_lines text))).
Proof.
  unfold load_env_file. split; [by intros ->|].
  intros text ->. eexists. split; [done|].
  fold (file_lines text).
  rewrite foldl_load_env_line, foldl_insert_list_to_map, (right_id_L ∅ (∪)).
  split.
  - intros k. apply list_to_map_lookup_find.
  - intros Hkeys. rewrite map_to_list_to_map.
    + apply reverse_Permutation.
    + by rewrite fmap_reverse, reverse_Permutation.
Qed.

Lemma load_env_file_reference_witness :
  fs demo_world !! py ".env"
  = Some (File (py "POHODA_URL = http://localhost " ++ [0x0A]))
  ∧ ∃ m, load_env_file (py ".env") (fs demo_world) = Some m
         ∧ m !! py "POHODA_URL" = Some (py "http://localhost")
         ∧ map_to_list m ≡ₚ [(py "POHODA_URL", py "http://localhost")].
Proof.
  split; [by vm_compute|].
  destruct (load_env_file_reference (py ".env") (fs demo_world)) as [_ Hfile].
  destruct (Hfile _ eq_refl) as (m & Hm & Hlookup & Hentries).
  exists m. split; [exact Hm|]. split.
  - rewrite Hlookup. by vm_compute.
  - apply Hentries. vm_compute. apply NoDup_singleton.
Defined.

(** C8, as it was stated, fails: two lines that set the same variable
    both count, and the mapping has one entry, with the later value. *)
Lemma duplicate_key_one_entry :
  env_entries (file_lines duplicate_text) = [(py "A", py "1"); (py "A", py "2")]
  ∧ map_to_list <$> load_env_file (py ".env") {[ py ".env" := File duplicate_text ]}
    = Some [(py "A", py "2")]
  ∧ ¬ one_entry_per_line.
Proof.
  split; [by vm_compute|]. split; [by vm_compute|].
  intros Hclaim.
  destruct (Hclaim (py ".env") {[ py ".env" := File duplicate_text ]}
              duplicate_text (lookup_singleton_eq _ _)) as (m & Hm & Hperm).
  apply Permutation_length in Hperm.
  vm_compute in Hm. injection Hm as <-. vm_compute in Hperm. discriminate Hperm.
Qed.

(** * Further properties *)

(** ** More on the downloader adapter *)

Lemma extract_files_some (entries : list json) (acc files : list str) :
  extract_files entries acc = Some files → Forall is_string entries.
Proof.
  revert acc. induction entries as [|entry entries IH]; intros acc; [done|].
  cbn. destruct entry; try done.
  destruct (re_search_processed s); intros Hrest;
    (constructor; [done | by eapply IH]).
Qed.

Lemma read_downloader_report_some (out : str) (files : list str) (report : json) :
  read_downloader_report out = Some (files, report) →
  json_loads out = Some report ∧ usable_report report
  ∧ ∃ entries, Forall is_string entries ∧ files = extracted_paths entries.
Proof.
  unfold read_downloader_report. intros Hread.
  destruct (json_loads out) as [j|]; [|done].
  cbn [mbind option_bind] in Hread.
  destruct j as [| | | | |items|members]; try done.
  cbn [mbind option_bind get_method] in Hread.
  destruct (default (JObj []) (dict_get (py "artifacts") members))
    as [| | | | |items|artifacts] eqn:Hart; try done.
  cbn [mbind option_bind get_method] in Hread.
  destruct (iterate (default (JArr []) (dict_get (py "processed_files") artifacts)))
    as [entries|] eqn:Hiter; [|done].
  cbn [mbind option_bind] in Hread.
  destruct (extract_files entries []) as [files'|] eqn:Hfiles; [|done].
  cbn [mbind option_bind] in Hread. injection Hread as <- <-.
  pose proof (extract_files_some _ _ _ Hfiles) as Hstr.
  split; [done|]. split; [by exists members, artifacts, entries|].
  exists entries. split; [done|].
  rewrite (extract_files_strings entries [] Hstr) in Hfiles. by simplify_eq.
Qed.

Lemma read_downloader_report_usable (out : str) (report : json) :
  json_loads out = Some report → usable_report report →
  ∃ files, read_downloader_report out = Some (files, report).
Proof.
  intros Hjson (members & artifacts & entries & -> & Hart & Hiter & Hstr).
  unfold read_downloader_report. rewrite Hjson.
  cbn [mbind option_bind get_method]. rewrite Hart.
  cbn [mbind option_bind get_method]. rewrite Hiter.
  cbn [mbind option_bind]. rewrite (extract_files_strings entries [] Hstr).
  by eexists.
Qed.

(** X1. After a downloader that was started, the adapter returns a list
    of files exactly when the downloader exited with status zero and
    its standard output is JSON text of a usable report. Any other
    output (no JSON, a JSON value that is not an object, an [artifacts]
    that is not an object, a [processed_files] that cannot be iterated
    or has an entry that is not a string) gives the failure pair. *)
Theorem download_succeeds_iff
    (h : host) (from_date to_date output_dir : str) (w : world)
    (overlay : gmap str str) (result : completed_process)
    (files' : gmap str node) :
  load_env_file (py ".env") (fs w) = Some overlay →
  subprocess_run h (downloader_cmd h output_dir) (overlay ∪ environ w) (fs w)
    = Some (result, files') →
  let returned := (download_statements h from_date to_date output_dir w).1 in
  (is_Some returned.1 ↔
   returncode result = 0%Z
   ∧ ∃ report, json_loads (stdout result) = Some report ∧ usable_report report)
  ∧ (¬ is_Some returned.1 → returned = (None, None)).
Proof.
  intros Henv Hrun returned. subst returned.
  rewrite (download_statements_ran h from_date to_date output_dir w _ _ _ Henv Hrun).
  case_bool_decide as Hcode.
  - split; [|done]. split; [by intros [? [=]]|]. by intros [? _].
  - destruct (read_downloader_report (stdout result)) as [[files report]|] eqn:Hread.
    + split; [|by intros []]. split; [|by eexists].
      intros _. split; [done|].
      apply read_downloader_report_some in Hread as (? & ? & _). eauto.
    + split; [|done]. split; [by intros [? [=]]|].
      intros (_ & report & Hjson & Huse).
      destruct (read_downloader_report_usable _ _ Hjson Huse) as [files Hfiles].
      congruence.
Qed.

Lemma download_succeeds_iff_witness :
  ¬ usable_report (JArr [])
  ∧ (download_statements array_host (py "2025-09-01") (py "2025-09-15")
       DEFAULT_OUTPUT_DIR demo_world).1 = (None, None).
Proof.
  assert (¬ usable_report (JArr [])) as Harray.
  { by intros (members & _ & _ & [=] & _). }
  split; [exact Harray|].
  eapply (download_succeeds_iff array_host _ _ _ demo_world);
    [reflexivity | reflexivity |].
  intros Hsome.
  eapply (download_succeeds_iff array_host _ _ _ demo_world) in Hsome
    as (_ & report & Hjson & Huse); [|reflexivity | reflexivity].
  vm_compute in Hjson. by simplify_eq.
Defined.

Lemma startswith_app (p s : str) : startswith p (p ++ s) = true.
Proof. induction p as [|a p IH]; [done|]. cbn. by rewrite N.eqb_refl. Qed.

Lemma startswith_split (p s : str) :
  startswith p s = true → s = p ++ drop (length p) s.
Proof.
  revert s. induction p as [|a p IH]; intros [|b s]; cbn; try done.
  intros [Hab%N.eqb_eq Hrest]%andb_true_iff. subst b. f_equal. by apply IH.
Qed.

Lemma span_not_colon_spec (s g r : str) :
  span_not_colon s = (g, r) →
  s = g ++ r ∧ (0x3A ∉ g) ∧ (r = [] ∨ head r = Some 0x3A).
Proof.
  revert g r. induction s as [|c s IH]; intros g r; cbn.
  - intros [= <- <-]. split; [done|]. split; [apply not_elem_of_nil | by left].
  - destruct (N.eqb_spec c 0x3A) as [->|Hc].
    + intros [= <- <-]. split; [done|]. split; [apply not_elem_of_nil | by right].
    + destruct (span_not_colon s) as [g' r'] eqn:Hspan. intros [= <- <-].
      destruct (IH _ _ eq_refl) as (-> & Hg & Hr).
      split; [done|]. split; [|done].
      apply not_elem_of_cons. split; [congruence | done].
Qed.

Lemma span_not_colon_app (g rest : str) :
  0x3A ∉ g → span_not_colon (g ++ 0x3A :: rest) = (g, 0x3A :: rest).
Proof.
  induction g as [|c g IH]; [done|].
  intros [Hc Hg]%not_elem_of_cons. cbn.
  destruct (N.eqb_spec c 0x3A) as [->|_]; [done|]. by rewrite IH.
Qed.

Lemma match_processed_spec (s g : str) :
  match_processed s = Some g →
  ∃ rest, s = py "Processed " ++ g ++ 0x3A :: rest ∧ g ≠ [] ∧ (0x3A ∉ g).
Proof.
  unfold match_processed.
  destruct (startswith (py "Processed ") s) eqn:Hstart; [|done].
  apply startswith_split in Hstart.
  destruct (span_not_colon (drop (length (py "Processed ")) s))
    as [g' r] eqn:Hspan.
  apply span_not_colon_spec in Hspan as (Hdrop & Hg & Hr).
  destruct g' as [|c g']; [done|]. destruct r as [|c' r]; [done|].
  intros [= <-]. destruct Hr as [|[= ->]]; [done|].
  exists r. split; [|done]. rewrite Hstart at 1. by rewrite Hdrop.
Qed.

Lemma re_search_processed_spec (s g : str) :
  re_search_processed s = Some g →
  ∃ before rest,
    s = before ++ py "Processed " ++ g ++ 0x3A :: rest ∧ g ≠ [] ∧ (0x3A ∉ g).
Proof.
  induction s as [|c s IH].
  - cbn. by destruct (match_processed []) eqn:Hm.
  - cbn [re_search_processed].
    destruct (match_processed (c :: s)) as [g'|] eqn:Hm.
    + intros [= ->]. apply match_processed_spec in Hm as (rest & ? & ? & ?).
      by exists [], rest.
    + intros (before & rest & -> & ? & ?)%IH. by exists (c :: before), rest.
Qed.

Lemma re_search_processed_entry (g rest : str) :
  g ≠ [] → 0x3A ∉ g →
  re_search_processed (py "Processed " ++ g ++ 0x3A :: rest) = Some g.
Proof.
  intros Hne Hg.
  assert (match_processed (py "Processed " ++ g ++ 0x3A :: rest) = Some g)
    as Hmatch.
  { unfold match_processed. rewrite startswith_app, drop_app_length.
    rewrite (span_not_colon_app _ _ Hg). by destruct g. }
  destruct (py "Processed " ++ g ++ 0x3A :: rest) eqn:Hs;
    cbn [re_search_processed]; by rewrite Hmatch.
Qed.

Lemma extract_files_elem_of (entries : list json) (acc files : list str) (f : str) :
  extract_files entries acc = Some files → f ∈ files →
  f ∈ acc ∨ ∃ entry, JStr entry ∈ entries ∧ re_search_processed entry = Some f.
Proof.
  revert acc. induction entries as [|entry entries IH]; intros acc; cbn.
  - intros [= <-]. by left.
  - destruct entry; try done.
    destruct (re_search_processed s) as [g|] eqn:Hg; intros Hrest Hf.
    + destruct (IH _ Hrest Hf) as [Hacc|(e & He & Hsearch)].
      * apply elem_of_app in Hacc as [Hacc|Hg']; [by left|].
        apply list_elem_of_singleton in Hg' as ->.
        right. exists s. split; [left | done].
      * right. exists e. split; [by right | done].
    + destruct (IH _ Hrest Hf) as [Hacc|(e & He & Hsearch)]; [by left|].
      right. exists e. split; [by right | done].
Qed.

Lemma download_statements_some
    (h : host) (from_date to_date output_dir : str) (w : world)
    (files : list str) :
  (download_statements h from_date to_date output_dir w).1.1 = Some files →
  ∃ out report,
    read_downloader_report out = Some (files, report)
    ∧ (download_statements h from_date to_date output_dir w).1.2 = Some report.
Proof.
  unfold download_statements.
  destruct (load_env_file _ _); [|done].
  destruct (run h _ _ w) as [[result|] w1]; [|done].
  case_bool_decide; [done|].
  destruct (read_downloader_report _) as [[files' report]|] eqn:Hread; [|done].
  cbn. intros [= ->]. by exists (stdout result), report.
Qed.

(** X2. Every path that the adapter returns is not empty and has no
    colon: the pattern takes the text between the word Processed with
    its space and the next colon, so a path with a colon in it comes
    back cut at that colon. *)
Theorem download_paths_shape
    (h : host) (from_date to_date output_dir : str) (w : world)
    (files : list str) (f : str) :
  (download_statements h from_date to_date output_dir w).1.1 = Some files →
  f ∈ files →
  f ≠ [] ∧ (0x3A ∉ f).
Proof.
  intros (out & report & Hread & _)%download_statements_some Hf.
  apply read_downloader_report_some in Hread as (_ & _ & entries & Hstr & ->).
  pose proof (extract_files_strings entries [] Hstr) as Hfiles.
  destruct (extract_files_elem_of _ _ _ f Hfiles Hf)
    as [Hnil|(entry & _ & Hsearch)]; [by apply elem_of_nil in Hnil|].
  by apply re_search_processed_spec in Hsearch as (_ & _ & _ & ? & ?).
Qed.

Lemma download_paths_shape_witness :
  py "/tmp/a.abo" ≠ [] ∧ (0x3A ∉ py "/tmp/a.abo").
Proof.
  eapply (download_paths_shape success_host (py "2025-09-01") (py "2025-09-15")
            DEFAULT_OUTPUT_DIR demo_world [py "/tmp/a.abo"]);
    [by vm_compute | by left].
Defined.

(** X3. The adapter returns a list of files and a report together or
    not at all, and a report it returns is a usable one, so always a
    JSON object. *)
Theorem download_returns_both
    (h : host) (from_date to_date output_dir : str) (w : world) :
  let returned := (download_statements h from_date to_date output_dir w).1 in
  (returned.1 = None ↔ returned.2 = None)
  ∧ ∀ report, returned.2 = Some report →
              usable_report report ∧ ∃ members, report = JObj members.
Proof.
  cbn zeta. unfold download_statements.
  destruct (load_env_file _ _); [|done].
  destruct (run h _ _ w) as [[result|] w1]; [|done].
  case_bool_decide; [done|].
  destruct (read_downloader_report _) as [[files report]|] eqn:Hread; [|done].
  cbn [fst snd]. split; [done|]. intros ? [= <-].
  apply read_downloader_report_some in Hread as (_ & Huse & _).
  split; [done|]. destruct Huse as (members & _ & _ & -> & _). by eexists.
Qed.

(** X4. The way back from paths to entries: a list of entries made of
    the word Processed, a space, a path that is not empty and has no
    colon, a colon and any text gives back the paths, in order. *)
Theorem extract_files_round_trip (entries : list (str * str)) :
  Forall (λ e, e.1 ≠ [] ∧ (0x3A ∉ e.1)) entries →
  extract_files ((λ e, processed_entry e.1 e.2) <$> entries) [] = Some entries.*1.
Proof.
  intros Hall.
  rewrite extract_files_strings.
  - f_equal. cbn [app]. unfold extracted_paths.
    induction Hall as [|[p rest] entries [Hne Hp] _ IH]; [done|].
    cbn [fst] in Hne, Hp.
    cbn [fmap list_fmap omap list_omap processed_path processed_entry fst snd].
    rewrite (re_search_processed_entry _ _ Hne Hp). cbn. f_equal. apply IH.
  - apply Forall_fmap. by apply Forall_true.
Qed.

Lemma extract_files_round_trip_witness :
  extract_files [processed_entry (py "/tmp/a.abo") (py " ok");
                 processed_entry (py "b c") (py ":")] []
  = Some [py "/tmp/a.abo"; py "b c"].
Proof.
  apply (extract_files_round_trip [(py "/tmp/a.abo", py " ok"); (py "b c", py ":")]).
  repeat (apply Forall_cons_2;
          [split; apply (bool_decide_unpack _); by vm_compute|]).
  apply Forall_nil_2.
Defined.

(** *** What the adapters leave on the console and in the list of calls *)

Lemma download_console
    (h : host) (from_date to_date output_dir : str) (w : world) :
  ∃ to m,
    console (download_statements h from_date to_date output_dir w).2
    = console w ++ [(to, m)]
    ∧ (to = Stdout ↔
       is_Some (download_statements h from_date to_date output_dir w).1.1)
    ∧ ∀ report, m ≠ Dumps report.
Proof.
  unfold download_statements, run.
  destruct (load_env_file _ _) as [overlay|];
    [|eexists _, _; split; [done|]; split; [|done]; split; [done|by intros []]].
  cbn [fs record_call].
  destruct (subprocess_run h _ _ _) as [[result files']|];
    [|eexists _, _; split; [done|]; split; [|done]; split; [done|by intros []]].
  case_bool_decide;
    [eexists _, _; split; [done|]; split; [|done]; split; [done|by intros []]|].
  destruct (read_downloader_report _) as [[files report]|];
    eexists _, _; (split; [done|]); (split; [|done]); split; try done.
  by intros [].
Qed.

Lemma import_console
    (h : host) (statement_file : list str) (url token : str) (w : world) :
  ∃ to m,
    console (import_statement_to_pohoda h statement_file url token w).2
    = console w ++ [(to, m)]
    ∧ (to = Stdout ↔
       is_Some (import_statement_to_pohoda h statement_file url token w).1.1)
    ∧ ∀ report, m ≠ Dumps report.
Proof.
  unfold import_statement_to_pohoda, run.
  destruct (named_temporary_file h (fs w)) as [report_path|];
    [|eexists _, _; split; [done|]; split; [|done]; split; [done|by intros []]].
  cbn [fs set_fs record_call environ].
  destruct (load_env_file _ _) as [overlay|];
    [|eexists _, _; split; [done|]; split; [|done]; split; [done|by intros []]].
  destruct (subprocess_run h _ _ _) as [[result files']|];
    [|eexists _, _; split; [done|]; split; [|done]; split; [done|by intros []]].
  case_bool_decide;
    [eexists _, _; split; [done|]; split; [|done]; split; [done|by intros []]|].
  cbn [fs set_fs].
  destruct (files' !! report_path) as [[text|]|];
    [|eexists _, _; split; [done|]; split; [|done]; split; [done|by intros []]..].
  destruct (json_loads _) as [report|];
    [destruct (import_result_prints report)|];
    eexists _, _; (split; [done|]); (split; [|done]); split; try done;
    by intros [].
Qed.

(** X5. Each adapter prints one line and no more, never a report of
    the run, and the line goes to the standard output exactly when the
    adapter returns a result; every failure is told on the standard
    error. *)
Theorem adapters_print_one_line
    (h : host) (from_date to_date output_dir : str)
    (statement_file : list str) (url token : str) (w : world) :
  let download := download_statements h from_date to_date output_dir w in
  let import := import_statement_to_pohoda h statement_file url token w in
  (∃ to m, console download.2 = console w ++ [(to, m)]
           ∧ (to = Stdout ↔ is_Some download.1.1)
           ∧ ∀ report, m ≠ Dumps report)
  ∧ (∃ to m, console import.2 = console w ++ [(to, m)]
             ∧ (to = Stdout ↔ is_Some import.1.1)
             ∧ ∀ report, m ≠ Dumps report).
Proof. split; [apply download_console | apply import_console]. Qed.

Lemma download_calls
    (h : host) (from_date to_date output_dir : str) (w : world) :
  calls (download_statements h from_date to_date output_dir w).2 =
  match load_env_file (py ".env") (fs w) with
  | Some overlay => calls w ++ [(downloader_cmd h output_dir, overlay ∪ environ w)]
  | None => calls w
  end
  ∧ environ (download_statements h from_date to_date output_dir w).2 = environ w.
Proof.
  unfold download_statements, run.
  destruct (load_env_file _ _) as [overlay|]; [|done].
  cbn [fs record_call].
  destruct (subprocess_run h _ _ _) as [[result files']|]; [|done].
  case_bool_decide; [done|].
  by destruct (read_downloader_report _) as [[files report]|].
Qed.

(** X6. The environment of the downloader: when the environment file
    can be read, the adapter starts one command, the downloader with
    its six arguments, and gives it the variables of the file over
    those of the process: a variable of the file wins, a variable that
    the file does not set keeps its inherited value. *)
Theorem download_environment
    (h : host) (from_date to_date output_dir : str) (w : world)
    (overlay : gmap str str) :
  load_env_file (py ".env") (fs w) = Some overlay →
  ∃ env,
    calls (download_statements h from_date to_date output_dir w).2
    = calls w ++ [(downloader_cmd h output_dir, env)]
    ∧ length (downloader_cmd h output_dir) = 6%nat
    ∧ ∀ k, env !! k = match overlay !! k with
                      | Some v => Some v
                      | None => environ w !! k
                      end.
Proof.
  intros Henv. exists (overlay ∪ environ w).
  destruct (download_calls h from_date to_date output_dir w) as [-> _].
  rewrite Henv. split; [done|]. split; [done|].
  intros k. rewrite lookup_union.
  by destruct (overlay !! k), (environ w !! k).
Qed.

Lemma download_environment_witness :
  ∃ env,
    calls (download_statements success_host (py "2025-09-01") (py "2025-09-15")
             DEFAULT_OUTPUT_DIR demo_world).2
    = [(downloader_cmd success_host DEFAULT_OUTPUT_DIR, env)]
    ∧ env !! py "POHODA_URL" = Some (py "http://localhost")
    ∧ env !! py "HOME" = Some (py "/home/user").
Proof.
  destruct (download_environment success_host (py "2025-09-01") (py "2025-09-15")
              DEFAULT_OUTPUT_DIR demo_world _ eq_refl) as (env & Hcalls & _ & Henv).
  exists env. split; [exact Hcalls|].
  split; rewrite Henv; by vm_compute.
Defined.

(** ** More on the orchestrator *)

Lemma import_calls
    (h : host) (statement_file : list str) (url token : str) (w : world) :
  calls (import_statement_to_pohoda h statement_file url token w).2 =
  match named_temporary_file h (fs w) with
  | Some report_path =>
      match load_env_file (py ".env") (<[report_path := File []]> (fs w)) with
      | Some overlay =>
          calls w ++ [(importer_cmd h report_path statement_file,
                       overlay ∪ environ w)]
      | None => calls w
      end
  | None => calls w
  end.
Proof.
  unfold import_statement_to_pohoda, run.
  destruct (named_temporary_file h (fs w)) as [report_path|]; [|done].
  cbn [fs set_fs record_call environ].
  destruct (load_env_file _ _) as [overlay|]; [|done].
  destruct (subprocess_run h _ _ _) as [[result files']|]; [|done].
  case_bool_decide; [done|]. cbn [fs set_fs].
  destruct (files' !! report_path) as [[text|]|]; [|done..].
  destruct (json_loads _) as [report|]; [|done].
  by destruct (import_result_prints report).
Qed.

Lemma printed_since_app (w w' : world) (lines : list (stream * message)) :
  console w' = console w ++ lines → printed_since w w' = lines.
Proof. unfold printed_since. intros ->. by rewrite drop_app_length. Qed.

Lemma reports_other (to : stream) (m : message) :
  (∀ report, m ≠ Dumps report) → reports [(to, m)] = [].
Proof. intros Hm. unfold reports. cbn. destruct m; try done. by destruct (Hm report). Qed.

Lemma reports_app (a b : list (stream * message)) :
  reports (a ++ b) = reports a ++ reports b.
Proof. apply omap_app. Qed.

Lemma final_report_other (w : world) (lines : list (stream * message))
    (to : stream) (m : message) :
  console w = lines ++ [(to, m)] → (∀ report, m ≠ Dumps report) →
  final_report w = None.
Proof.
  intros Hconsole Hm. unfold final_report. rewrite Hconsole, last_snoc.
  destruct to; [|done]. destruct m; try done. by destruct (Hm report).
Qed.

(** X7. Of the command line, a run reads the output directory only: two
    runs that differ in the dates, in the address or in the token, and
    in nothing else, are the same run. The range of dates does not
    reach the downloader. *)
Theorem main_reads_output_dir_only (h : host) (args args' : arguments) (w : world) :
  output_dir args = output_dir args' → main h args w = main h args' w.
Proof. destruct args, args'. simpl. by intros ->. Qed.

Lemma main_reads_output_dir_only_witness :
  main success_host demo_args demo_world
  = main success_host
      (Arguments (py "1999-12-31") (py "1999-01-01") DEFAULT_OUTPUT_DIR
                 (py "") (py ""))
      demo_world.
Proof. by apply main_reads_output_dir_only. Defined.

Section MoreOrchestrator.

Variable h : host.
Variable args : arguments.
Variables w w1 w2 : world.
Variable files1 : gmap str node.
Variable files : list str.
Variable downloader_report : option json.
Variable importer_report : option json.
Variable report_path : option str.

Hypothesis Hmakedirs : makedirs h (output_dir args) (fs w) = Some files1.
Hypothesis Hdownload :
  download_statements h (from_date args) (to_date args) (output_dir args)
    (set_fs files1 w) = ((Some files, downloader_report), w1).
Hypothesis Hfiles : files ≠ [].
Hypothesis Himport :
  import_statement_to_pohoda h files (pohoda_url args) (pohoda_token args) w1
  = ((importer_report, report_path), w2).

(** The run after both adapters, by what the importer adapter returned. *)
Lemma main_after_import :
  main h args w =
  if negb (truthy_opt importer_report) then
    (SysExit 2,
     print Stdout
       (Dumps (JObj (add_downloader_report downloader_report
                       [(py "timestamp", JStr (now_isoformat h));
                        (py "artifacts",
                         JObj [(py "imported_statement", JArr (JStr <$> files))]);
                        (py "metrics", JObj []);
                        (py "status", JStr (py "error"));
                        (py "message",
                         JStr (py "Failed to import statement(s) to Pohoda."))])))
       w2)
  else
    match importer_report with
    | Some ((JObj members) as importer_report) =>
        (Returned,
         print Stdout
           (Dumps (JObj
              (match downloader_report with
               | Some r => if truthy r
                           then set_artifact (py "downloader_report") r
                           else id
               | None => id
               end
                 [(py "timestamp", JStr (now_isoformat h));
                  (py "artifacts",
                   JObj [(py "imported_statement", JArr (JStr <$> files));
                         (py "importer_report", importer_report)]);
                  (py "metrics", JObj []);
                  (py "status",
                   default (JStr (py "success")) (dict_get (py "status") members));
                  (py "message",
                   default (JStr (py "Statement(s) successfully imported to Pohoda."))
                     (dict_get (py "message") members))])))
           w2)
    | _ => (Uncaught, w2)
    end.
Proof.
  rewrite (main_some_files h args w files1 Hmakedirs files downloader_report w1
             Hdownload Hfiles).
  cbn zeta. by rewrite Himport.
Qed.

End MoreOrchestrator.

(** X8. A report of the importer that is an object with a member: the
    run ends with exit code 0 whatever the report says. Status and
    message of the printed report are those of the importer, or the
    words of success where the importer gives none; the report of the
    importer and the list of files are under [artifacts], and so is
    the report of the downloader unless it is empty. *)
Theorem main_importer_object
    (h : host) (args : arguments) (w w1 w2 : world) (files1 : gmap str node)
    (files : list str) (downloader_report : option json)
    (members : dict) (report_path : option str) :
  makedirs h (output_dir args) (fs w) = Some files1 →
  download_statements h (from_date args) (to_date args) (output_dir args)
    (set_fs files1 w) = ((Some files, downloader_report), w1) →
  files ≠ [] →
  import_statement_to_pohoda h files (pohoda_url args) (pohoda_token args) w1
    = ((Some (JObj members), report_path), w2) →
  members ≠ [] →
  exit_code (main h args w).1 = 0%Z
  ∧ ∃ report,
      final_report (main h args w).2 = Some report
      ∧ json_at [py "status"] report
        = Some (default (JStr (py "success")) (dict_get (py "status") members))
      ∧ json_at [py "message"] report
        = Some (default (JStr (py "Statement(s) successfully imported to Pohoda."))
                  (dict_get (py "message") members))
      ∧ json_at [py "artifacts"; py "imported_statement"] report
        = Some (JArr (JStr <$> files))
      ∧ json_at [py "artifacts"; py "importer_report"] report
        = Some (JObj members)
      ∧ json_at [py "artifacts"; py "downloader_report"] report
        = (if truthy_opt downloader_report then downloader_report else None)
      ∧ json_at [py "downloader_report"] report = None.
Proof.
  intros Hmakedirs Hdownload Hfiles Himport Hmembers.
  rewrite (main_after_import h args w w1 w2 files1 files downloader_report _ _
             Hmakedirs Hdownload Hfiles Himport).
  cbn [truthy_opt truthy]. rewrite bool_decide_eq_false_2 by done.
  cbn [negb fst snd exit_code].
  split; [done|]. eexists. rewrite final_report_print. split; [done|].
  destruct downloader_report as [r|]; [cbn [truthy_opt]; destruct (truthy r)|];
    by repeat split.
Qed.

Lemma main_importer_object_witness :
  (import_statement_to_pohoda reported_error_host [py "/tmp/a.abo"]
     (pohoda_url demo_args) (pohoda_token demo_args)
     (download_statements reported_error_host (from_date demo_args)
        (to_date demo_args) (output_dir demo_args)
        (set_fs (<[output_dir demo_args := Directory]> (fs demo_world))
           demo_world)).2).1.1
  = Some (JObj [(py "status", JStr (py "error"));
                (py "message", JStr (py "nothing imported"))])
  ∧ exit_code (main reported_error_host demo_args demo_world).1 = 0%Z
  ∧ ∃ report,
      final_report (main reported_error_host demo_args demo_world).2 = Some report
      ∧ json_at [py "status"] report = Some (JStr (py "error")).
Proof.
  split; [by vm_compute|].
  destruct (main_importer_object reported_error_host demo_args demo_world _ _ _
              [py "/tmp/a.abo"] _
              [(py "status", JStr (py "error"));
               (py "message", JStr (py "nothing imported"))] _
              eq_refl ltac:(by vm_compute) ltac:(done) ltac:(by vm_compute)
              ltac:(done))
    as (Hcode & report & Hfinal & Hstatus & _).
  split; [exact Hcode|]. exists report. split; [exact Hfinal | exact Hstatus].
Defined.

(** X9. No report of the importer, or one that counts as false (null,
    false, zero, an empty string, list or object): the run ends with
    exit code 2 and an error report about the import. Its [artifacts]
    hold the list of files under [imported_statement] and nothing else;
    the report of the downloader, unless empty, is a member of the
    report itself. *)
Theorem main_import_failure
    (h : host) (args : arguments) (w w1 w2 : world) (files1 : gmap str node)
    (files : list str) (downloader_report importer_report : option json)
    (report_path : option str) :
  makedirs h (output_dir args) (fs w) = Some files1 →
  download_statements h (from_date args) (to_date args) (output_dir args)
    (set_fs files1 w) = ((Some files, downloader_report), w1) →
  files ≠ [] →
  import_statement_to_pohoda h files (pohoda_url args) (pohoda_token args) w1
    = ((importer_report, report_path), w2) →
  truthy_opt importer_report = false →
  exit_code (main h args w).1 = 2%Z
  ∧ ∃ report,
      (main h args w).2 = print Stdout (Dumps report) w2
      ∧ final_report (main h args w).2 = Some report
      ∧ json_at [py "status"] report = Some (JStr (py "error"))
      ∧ json_at [py "message"] report
        = Some (JStr (py "Failed to import statement(s) to Pohoda."))
      ∧ json_at [py "artifacts"] report
        = Some (JObj [(py "imported_statement", JArr (JStr <$> files))])
      ∧ json_at [py "downloader_report"] report
        = (if truthy_opt downloader_report then downloader_report else None).
Proof.
  intros Hmakedirs Hdownload Hfiles Himport Hfalse.
  rewrite (main_after_import h args w w1 w2 files1 files downloader_report _ _
             Hmakedirs Hdownload Hfiles Himport).
  rewrite Hfalse. cbn [negb fst snd exit_code].
  split; [done|]. eexists. split; [done|]. rewrite final_report_print.
  split; [done|].
  destruct downloader_report as [r|];
    [cbn [truthy_opt add_downloader_report]; destruct (truthy r)|];
    by repeat split.
Qed.

Lemma main_import_failure_witness :
  (import_statement_to_pohoda empty_report_host [py "/tmp/a.abo"]
     (pohoda_url demo_args) (pohoda_token demo_args)
     (download_statements empty_report_host (from_date demo_args)
        (to_date demo_args) (output_dir demo_args)
        (set_fs (<[output_dir demo_args := Directory]> (fs demo_world))
           demo_world)).2).1
  = (Some (JObj []), Some temp_path)
  ∧ exit_code (main empty_report_host demo_args demo_world).1 = 2%Z.
Proof.
  split; [by vm_compute|].
  eapply (main_import_failure empty_report_host demo_args demo_world _ _ _
            [py "/tmp/a.abo"] _ (Some (JObj [])));
    [reflexivity | by vm_compute | done | by vm_compute | done].
Defined.

(** X10. A report of the importer that counts as true and is not an
    object (a list with an item, a string, a number other than zero,
    true): the run stops on the call of [get] with an exception that
    nothing catches. The exit code is 1 and no report of the run is
    printed; the last line on the console is that of the importer
    adapter. *)
Theorem main_importer_not_object
    (h : host) (args : arguments) (w w1 w2 : world) (files1 : gmap str node)
    (files : list str) (downloader_report : option json)
    (importer_report : json) (report_path : option str) :
  makedirs h (output_dir args) (fs w) = Some files1 →
  download_statements h (from_date args) (to_date args) (output_dir args)
    (set_fs files1 w) = ((Some files, downloader_report), w1) →
  files ≠ [] →
  import_statement_to_pohoda h files (pohoda_url args) (pohoda_token args) w1
    = ((Some importer_report, report_path), w2) →
  truthy importer_report = true →
  (∀ members, importer_report ≠ JObj members) →
  main h args w = (Uncaught, w2)
  ∧ exit_code (main h args w).1 = 1%Z
  ∧ final_report (main h args w).2 = None
  ∧ reports (printed_since w (main h args w).2) = [].
Proof.
  intros Hmakedirs Hdownload Hfiles Himport Htrue Hobject.
  rewrite (main_after_import h args w w1 w2 files1 files downloader_report _ _
             Hmakedirs Hdownload Hfiles Himport).
  cbn [truthy_opt]. rewrite Htrue. cbn [negb].
  assert ((match importer_report with
           | JObj members => (Returned, print Stdout (Dumps (JObj
               (match downloader_report with
                | Some r => if truthy r
                            then set_artifact (py "downloader_report") r
                            else id
                | None => id
                end
                  [(py "timestamp", JStr (now_isoformat h));
                   (py "artifacts",
                    JObj [(py "imported_statement", JArr (JStr <$> files));
                          (py "importer_report", importer_report)]);
                   (py "metrics", JObj []);
                   (py "status",
                    default (JStr (py "success")) (dict_get (py "status") members));
                   (py "message",
                    default (JStr (py "Statement(s) successfully imported to Pohoda."))
                      (dict_get (py "message") members))]))) w2)
           | _ => (Uncaught, w2)
           end) = (Uncaught, w2)) as ->.
  { destruct importer_report; try done. by destruct (Hobject members). }
  cbn [fst snd exit_code]. split; [done|]. split; [done|].
  destruct (download_console h (from_date args) (to_date args) (output_dir args)
              (set_fs files1 w)) as (to1 & m1 & Hc1 & _ & Hm1).
  destruct (import_console h files (pohoda_url args) (pohoda_token args) w1)
    as (to2 & m2 & Hc2 & _ & Hm2).
  rewrite Hdownload in Hc1. rewrite Himport in Hc2. cbn [snd set_fs console] in *.
  split.
  - by eapply final_report_other.
  - rewrite (printed_since_app w w2 [(to1, m1); (to2, m2)]).
    + change [(to1, m1); (to2, m2)] with ([(to1, m1)] ++ [(to2, m2)]).
      by rewrite reports_app, !reports_other.
    + rewrite Hc2, Hc1. by rewrite <- app_assoc.
Qed.

Lemma main_importer_not_object_witness :
  (import_statement_to_pohoda list_report_host [py "/tmp/a.abo"]
     (pohoda_url demo_args) (pohoda_token demo_args)
     (download_statements list_report_host (from_date demo_args)
        (to_date demo_args) (output_dir demo_args)
        (set_fs (<[output_dir demo_args := Directory]> (fs demo_world))
           demo_world)).2).1
  = (Some (JArr [JInt 1]), Some temp_path)
  ∧ exit_code (main list_report_host demo_args demo_world).1 = 1%Z
  ∧ final_report (main list_report_host demo_args demo_world).2 = None.
Proof.
  split; [by vm_compute|].
  destruct (main_importer_not_object list_report_host demo_args demo_world _ _ _
              [py "/tmp/a.abo"] _ (JArr [JInt 1]) _
              eq_refl ltac:(by vm_compute) ltac:(done) ltac:(by vm_compute)
              eq_refl ltac:(done))
    as (_ & Hcode & Hfinal & _).
  split; [exact Hcode | exact Hfinal].
Defined.

(** Every run is of one of five kinds. *)
Lemma main_cases (h : host) (args : arguments) (w : world) :
  (makedirs h (output_dir args) (fs w) = None ∧ main h args w = (Uncaught, w))
  ∨ ∃ files1 statement_files downloader_report w1,
      makedirs h (output_dir args) (fs w) = Some files1
      ∧ download_statements h (from_date args) (to_date args) (output_dir args)
          (set_fs files1 w) = ((statement_files, downloader_report), w1)
      ∧ ((truthy_files statement_files = false
          ∧ main h args w =
            (SysExit 1,
             print Stdout
               (Dumps (JObj (add_downloader_report downloader_report
                  [(py "timestamp", JStr (now_isoformat h));
                   (py "artifacts", JObj []);
                   (py "metrics", JObj []);
                   (py "status", JStr (py "error"));
                   (py "message", JStr (py "Failed to download statement(s)."))])))
               w1))
         ∨ ∃ files importer_report report_path w2,
             statement_files = Some files ∧ files ≠ []
             ∧ import_statement_to_pohoda h files (pohoda_url args)
                 (pohoda_token args) w1 = ((importer_report, report_path), w2)
             ∧ ((truthy_opt importer_report = false
                 ∧ main h args w =
                   (SysExit 2,
                    print Stdout
                      (Dumps (JObj (add_downloader_report downloader_report
                         [(py "timestamp", JStr (now_isoformat h));
                          (py "artifacts",
                           JObj [(py "imported_statement", JArr (JStr <$> files))]);
                          (py "metrics", JObj []);
                          (py "status", JStr (py "error"));
                          (py "message",
                           JStr (py "Failed to import statement(s) to Pohoda."))])))
                      w2))
                ∨ (∃ members,
                     importer_report = Some (JObj members) ∧ members ≠ []
                     ∧ main h args w =
                       (Returned,
                        print Stdout
                          (Dumps (JObj
                             (match downloader_report with
                              | Some r => if truthy r
                                          then set_artifact (py "downloader_report") r
                                          else id
                              | None => id
                              end
                                [(py "timestamp", JStr (now_isoformat h));
                                 (py "artifacts",
                                  JObj [(py "imported_statement",
                                         JArr (JStr <$> files));
                                        (py "importer_report", JObj members)]);
                                 (py "metrics", JObj []);
                                 (py "status",
                                  default (JStr (py "success"))
                                    (dict_get (py "status") members));
                                 (py "message",
                                  default
                                    (JStr (py "Statement(s) successfully imported to Pohoda."))
                                    (dict_get (py "message") members))])))
                          w2))
                ∨ (∃ r, importer_report = Some r ∧ truthy r = true
                        ∧ (∀ members, r ≠ JObj members)
                        ∧ main h args w = (Uncaught, w2)))).
Proof.
  destruct (makedirs h (output_dir args) (fs w)) as [files1|] eqn:Hmakedirs;
    [right | left; split; [done|]; unfold main; by rewrite Hmakedirs].
  destruct (download_statements h (from_date args) (to_date args)
              (output_dir args) (set_fs files1 w))
    as [[statement_files downloader_report] w1] eqn:Hdownload.
  exists files1, statement_files, downloader_report, w1.
  split; [done|]. split; [done|].
  destruct (truthy_files statement_files) eqn:Hfiles;
    [right
    | left; split; [done|];
      by apply (main_no_files h args w files1 Hmakedirs statement_files
                  downloader_report w1)].
  destruct statement_files as [[|file files]|]; try done.
  destruct (import_statement_to_pohoda h (file :: files) (pohoda_url args)
              (pohoda_token args) w1)
    as [[importer_report report_path] w2] eqn:Himport.
  exists (file :: files), importer_report, report_path, w2.
  split; [done|]. split; [done|]. split; [done|].
  pose proof (main_after_import h args w w1 w2 files1 (file :: files)
                downloader_report _ _ Hmakedirs Hdownload ltac:(done) Himport)
    as Hmain.
  destruct (truthy_opt importer_report) eqn:Htruthy; [right | by left].
  cbn [negb] in Hmain.
  destruct importer_report as [r|]; [|done]. cbn [truthy_opt] in Htruthy.
  destruct r as [| | | | | |members];
    try (right; eexists; split; [done|]; split; [done|]; split; [|done];
         by intros ?).
  left. exists members. split; [done|]. split; [|done].
  intros ->. by vm_compute in Htruthy.
Qed.

(** X11. Runs whose command line the parser has accepted, that is the
    run from line 150 on: the exit code of such a run is 0, 1 or 2. If
    it does not stop on an exception, it prints exactly one report, as
    its last line and on the standard output, and when its exit code is
    not 0 the status of the report is error. If it stops on an
    exception, it prints no report. (A run that ends in the parser, on
    a refused command line or on a request for help, is not among
    these.) *)
Theorem main_prints_one_report (h : host) (args : arguments) (w : world) :
  let run := main h args w in
  let printed := printed_since w run.2 in
  (exit_code run.1 = 0 ∨ exit_code run.1 = 1 ∨ exit_code run.1 = 2)%Z
  ∧ ((run.1 = Uncaught ∧ reports printed = [])
     ∨ (∃ report,
          run.1 ≠ Uncaught
          ∧ reports printed = [report]
          ∧ last printed = Some (Stdout, Dumps report)
          ∧ (exit_code run.1 ≠ 0%Z →
             json_at [py "status"] report = Some (JStr (py "error"))))).
Proof.
  cbn zeta.
  destruct (main_cases h args w)
    as [[_ ->]|(files1 & sf & dr & w1 & _ & Hdownload & Hrest)].
  { cbn [fst snd exit_code]. split; [tauto|]. left. split; [done|].
    by rewrite (printed_since_app w w []) by by rewrite app_nil_r. }
  destruct (download_console h (from_date args) (to_date args) (output_dir args)
              (set_fs files1 w)) as (to1 & m1 & Hc1 & _ & Hm1).
  rewrite Hdownload in Hc1. cbn [snd set_fs console] in Hc1.
  destruct Hrest as [[_ ->]|(files & ir & rp & w2 & _ & _ & Himport & Hrest)].
  { cbn [fst snd exit_code]. split; [tauto|]. right. eexists.
    split; [done|].
    rewrite (printed_since_app _ _ ([(to1, m1)] ++ [(Stdout, Dumps _)]))
      by (cbn [print console]; by rewrite Hc1, <- app_assoc).
    rewrite reports_app, reports_other by done. split; [done|].
    split; [by rewrite last_snoc|]. intros _.
    destruct dr as [r|]; [cbn [add_downloader_report]; destruct (truthy r)|];
      done. }
  destruct (import_console h files (pohoda_url args) (pohoda_token args) w1)
    as (to2 & m2 & Hc2 & _ & Hm2).
  rewrite Himport in Hc2. cbn [snd] in Hc2.
  destruct Hrest as [[_ ->]|[(members & _ & _ & ->)|(r & _ & _ & _ & ->)]].
  - cbn [fst snd exit_code]. split; [tauto|]. right. eexists.
    split; [done|].
    rewrite (printed_since_app _ _
               ([(to1, m1)] ++ [(to2, m2)] ++ [(Stdout, Dumps _)]))
      by (cbn [print console]; by rewrite Hc2, Hc1, <- !app_assoc).
    rewrite !reports_app, !reports_other by done. split; [done|].
    split; [by rewrite !app_assoc, last_snoc|]. intros _.
    destruct dr as [r|]; [cbn [add_downloader_report]; destruct (truthy r)|];
      done.
  - cbn [fst snd exit_code]. split; [tauto|]. right. eexists.
    split; [done|].
    rewrite (printed_since_app _ _
               ([(to1, m1)] ++ [(to2, m2)] ++ [(Stdout, Dumps _)]))
      by (cbn [print console]; by rewrite Hc2, Hc1, <- !app_assoc).
    rewrite !reports_app, !reports_other by done. split; [done|].
    split; [by rewrite !app_assoc, last_snoc|]. by intros [].
  - cbn [fst snd exit_code]. split; [tauto|]. left. split; [done|].
    rewrite (printed_since_app _ _ ([(to1, m1)] ++ [(to2, m2)]))
      by (by rewrite Hc2, Hc1, <- !app_assoc).
    by rewrite !reports_app, !reports_other.
Qed.

(** X12. The frame of the report: every report that a run prints is an
    object that starts with the members [timestamp], [artifacts] and
    [metrics], in this order, has a [status] and a [message], carries
    the time that the clock gave, an object as [artifacts] and the
    empty object as [metrics]. *)
Theorem main_report_frame (h : host) (args : arguments) (w : world) (report : json) :
  (main h args w).1 ≠ Uncaught →
  final_report (main h args w).2 = Some report →
  ∃ members artifacts,
    report = JObj members
    ∧ take 3 members.*1 = [py "timestamp"; py "artifacts"; py "metrics"]
    ∧ dict_get (py "timestamp") members = Some (JStr (now_isoformat h))
    ∧ dict_get (py "artifacts") members = Some (JObj artifacts)
    ∧ dict_get (py "metrics") members = Some (JObj [])
    ∧ is_Some (dict_get (py "status") members)
    ∧ is_Some (dict_get (py "message") members).
Proof.
  destruct (main_cases h args w)
    as [[_ ->]|(files1 & sf & dr & w1 & _ & _ &
                [[_ ->]|(files & ir & rp & w2 & _ & _ & _ &
                         [[_ ->]|[(members & _ & _ & ->)|(r & _ & _ & _ & ->)]])])];
    cbn [fst snd]; try done; intros _; rewrite final_report_print;
    intros [= <-].
  - destruct dr as [r|]; [cbn [add_downloader_report]; destruct (truthy r)|];
      eexists _, _; by repeat split.
  - destruct dr as [r|]; [cbn [add_downloader_report]; destruct (truthy r)|];
      eexists _, _; by repeat split.
  - destruct dr as [r|]; [destruct (truthy r)|];
      eexists _, _; by repeat split.
Qed.

Lemma main_report_frame_witness :
  (main success_host demo_args demo_world).1 ≠ Uncaught
  ∧ ∃ report members,
      final_report (main success_host demo_args demo_world).2 = Some report
      ∧ report = JObj members
      ∧ dict_get (py "timestamp") members = Some (JStr (py "2025-09-15T12:00:00")).
Proof.
  assert ((main success_host demo_args demo_world).1 ≠ Uncaught) as Hrun
    by by vm_compute.
  split; [exact Hrun|].
  destruct (final_report (main success_host demo_args demo_world).2)
    as [report|] eqn:Hfinal; [|by vm_compute in Hfinal].
  destruct (main_report_frame success_host demo_args demo_world report Hrun Hfinal)
    as (members & artifacts & Hreport & _ & Htime & _).
  by exists report, members.
Defined.

(** X13. From the downloader to the importer: when the downloader
    adapter has returned files, the run starts one more command, the
    importer, and hands it the option [-o], the path of the fresh
    report file and then exactly those files, in their order, in the
    environment of the process overlaid with the environment file. *)
Theorem main_passes_files
    (h : host) (args : arguments) (w w1 : world) (files1 : gmap str node)
    (files : list str) (downloader_report : option json)
    (report_path : str) (overlay : gmap str str) :
  makedirs h (output_dir args) (fs w) = Some files1 →
  download_statements h (from_date args) (to_date args) (output_dir args)
    (set_fs files1 w) = ((Some files, downloader_report), w1) →
  files ≠ [] →
  named_temporary_file h (fs w1) = Some report_path →
  load_env_file (py ".env") (<[report_path := File []]> (fs w1)) = Some overlay →
  calls (main h args w).2
  = calls w1 ++ [(importer_cmd h report_path files, overlay ∪ environ w)]
  ∧ drop 2 (importer_cmd h report_path files) = [py "-o"; report_path] ++ files.
Proof.
  intros Hmakedirs Hdownload Hfiles Htmp Henv. split; [|done].
  destruct (import_statement_to_pohoda h files (pohoda_url args)
              (pohoda_token args) w1)
    as [[importer_report path] w2] eqn:Himport.
  pose proof (import_calls h files (pohoda_url args) (pohoda_token args) w1)
    as Hcalls.
  rewrite Himport, Htmp, Henv in Hcalls. cbn [snd] in Hcalls.
  destruct (download_calls h (from_date args) (to_date args) (output_dir args)
              (set_fs files1 w)) as [_ Henviron].
  rewrite Hdownload in Henviron. cbn [snd set_fs environ] in Henviron.
  rewrite Henviron in Hcalls. rewrite <- Hcalls.
  rewrite (main_after_import h args w w1 w2 files1 files downloader_report _ _
             Hmakedirs Hdownload Hfiles Himport).
  destruct (negb (truthy_opt importer_report)); [done|].
  by destruct importer_report as [[]|].
Qed.

Lemma main_passes_files_witness :
  (calls (main success_host demo_args demo_world).2).*1
  = [downloader_cmd success_host DEFAULT_OUTPUT_DIR;
     [py "php";
      py "/home/user/Projects/SpojeNetIT/pohoda-abo-importer/src/importer.php";
      py "-o"; temp_path; py "/tmp/a.abo"]].
Proof.
  destruct (main_passes_files success_host demo_args demo_world _ _
              [py "/tmp/a.abo"] _ temp_path _
              eq_refl ltac:(by vm_compute) ltac:(done) eq_refl eq_refl)
    as [-> _].
  rewrite fmap_app. by vm_compute.
Defined.

(** X14. An environment file that cannot be opened (a directory of
    that name): the run starts no command at all and ends as a failed
    download, with exit code 1 and the error report of the download. *)
Theorem main_env_directory
    (h : host) (args : arguments) (w : world) (files1 : gmap str node) :
  makedirs h (output_dir args) (fs w) = Some files1 →
  files1 !! py ".env" = Some Directory →
  exit_code (main h args w).1 = 1%Z
  ∧ calls (main h args w).2 = calls w
  ∧ console (main h args w).2
    = console w
      ++ [(Stderr, ErrorRunningDownloader);
          (Stdout,
           Dumps (JObj [(py "timestamp", JStr (now_isoformat h));
                        (py "artifacts", JObj []);
                        (py "metrics", JObj []);
                        (py "status", JStr (py "error"));
                        (py "message",
                         JStr (py "Failed to download statement(s)."))]))].
Proof.
  intros Hmakedirs Hdir.
  assert (download_statements h (from_date args) (to_date args) (output_dir args)
            (set_fs files1 w)
          = ((None, None), print Stderr ErrorRunningDownloader (set_fs files1 w)))
    as Hdownload.
  { unfold download_statements, load_env_file. cbn [fs set_fs].
    by rewrite Hdir. }
  rewrite (main_no_files h args w files1 Hmakedirs None None _ Hdownload eq_refl).
  cbn [fst snd exit_code add_downloader_report print set_fs calls console].
  split; [done|]. split; [done|]. by rewrite <- app_assoc.
Qed.

Lemma main_env_directory_witness :
  exit_code (main success_host demo_args env_directory_world).1 = 1%Z
  ∧ calls (main success_host demo_args env_directory_world).2 = [].
Proof.
  destruct (main_env_directory success_host demo_args env_directory_world _
              eq_refl ltac:(by vm_compute)) as (Hcode & Hcalls & _).
  split; [exact Hcode | exact Hcalls].
Defined.

(** ** More on the importer adapter *)

Lemma json_loads_blank (s : str) :
  Forall (λ c, json_ws c = true) s → json_loads s = None.
Proof.
  intros Hws. unfold json_loads.
  assert (skip_ws s = []) as ->.
  { induction Hws as [|c s Hc _ IH]; [done|]. cbn. by rewrite Hc. }
  destruct (startswith [0xFEFF] s); [done|].
  by destruct (2 * length s)%nat.
Qed.

Lemma universal_newlines_blank (s : str) :
  Forall (λ c, json_ws c = true) s →
  Forall (λ c, json_ws c = true) (universal_newlines s).
Proof.
  remember (length s) as n eqn:Hn.
  assert (length s ≤ n)%nat as Hle by lia. clear Hn.
  revert s Hle. induction n as [|n IH]; intros s Hle Hws.
  { destruct s; [constructor | cbn in Hle; lia]. }
  destruct s as [|c s]; [constructor|]. cbn [length] in Hle.
  apply Forall_cons in Hws as [Hc Hws]. cbn [universal_newlines].
  destruct (c =? 13).
  - constructor; [done|]. destruct s as [|c' s]; [constructor|].
    apply Forall_cons in Hws as [Hc' Hws']. cbn [length] in Hle.
    destruct (c' =? 10).
    + apply IH; [lia | done].
    + apply IH; [cbn [length]; lia | by constructor].
  - constructor; [done|]. apply IH; [lia | done].
Qed.

(** X15. An importer that exits with status zero and leaves its report
    file empty, as the adapter made it, or with white space only, makes
    the adapter return the failure pair: to succeed, the importer has
    to write its report. *)
Theorem import_blank_report_file
    (h : host) (statement_file : list str) (url token : str) (w : world)
    (report_path : str) (overlay : gmap str str)
    (result : completed_process) (files' : gmap str node) (text : str) :
  named_temporary_file h (fs w) = Some report_path →
  load_env_file (py ".env") (<[report_path := File []]> (fs w)) = Some overlay →
  subprocess_run h (importer_cmd h report_path statement_file)
    (overlay ∪ environ w) (<[report_path := File []]> (fs w))
    = Some (result, files') →
  returncode result = 0%Z →
  files' !! report_path = Some (File text) →
  Forall (λ c, json_ws c = true) text →
  (import_statement_to_pohoda h statement_file url token w).1 = (None, None).
Proof.
  intros Htmp Henv Hrun Hcode Hfile Hblank.
  unfold import_statement_to_pohoda, run. rewrite Htmp.
  cbn [fs set_fs record_call environ]. rewrite Henv.
  cbn [fs set_fs record_call environ]. rewrite Hrun.
  rewrite bool_decide_eq_false_2 by (intros Hne; by apply Hne).
  cbn [fs set_fs]. rewrite Hfile.
  by rewrite (json_loads_blank _ (universal_newlines_blank _ Hblank)).
Qed.

Lemma import_blank_report_file_witness :
  (import_statement_to_pohoda silent_importer_host [py "/tmp/a.abo"]
     (py "http://localhost") (py "secret") demo_world).1 = (None, None).
Proof.
  eapply (import_blank_report_file silent_importer_host [py "/tmp/a.abo"] _ _
            demo_world temp_path _ (exited 0 (py "")) _ []);
    [reflexivity | reflexivity | reflexivity | reflexivity
    | by vm_compute | constructor].
Defined.

(** X16. The report file stays: the adapter makes the file and never
    removes it. When the importer, if it gets to run, leaves something
    under the path, something is under the path after the adapter has
    returned, on success and on every failure. *)
Theorem import_keeps_report_file
    (h : host) (statement_file : list str) (url token : str) (w : world)
    (report_path : str) :
  named_temporary_file h (fs w) = Some report_path →
  (∀ overlay result files',
     subprocess_run h (importer_cmd h report_path statement_file)
       (overlay ∪ environ w) (<[report_path := File []]> (fs w))
       = Some (result, files') →
     is_Some (files' !! report_path)) →
  is_Some (fs (import_statement_to_pohoda h statement_file url token w).2
           !! report_path).
Proof.
  intros Htmp Hkeeps.
  unfold import_statement_to_pohoda, run. rewrite Htmp.
  cbn [fs set_fs record_call environ].
  destruct (load_env_file _ _) as [overlay|];
    [|cbn [print fs set_fs record_call snd]; by rewrite lookup_insert_eq].
  destruct (subprocess_run h _ _ _) as [[result files']|] eqn:Hrun;
    [|cbn [print fs set_fs record_call snd]; by rewrite lookup_insert_eq].
  apply Hkeeps in Hrun.
  case_bool_decide; [done|]. cbn [fs set_fs].
  destruct (files' !! report_path) as [[text|]|] eqn:Hfile;
    [|cbn [print fs set_fs record_call snd]; by rewrite Hfile..].
  destruct (json_loads _) as [report|];
    [destruct (import_result_prints report)|];
    cbn [print fs set_fs record_call snd]; by rewrite Hfile.
Qed.

Lemma import_keeps_report_file_witness :
  is_Some (fs (import_statement_to_pohoda success_host [py "/tmp/a.abo"]
                 (py "http://localhost") (py "secret") demo_world).2
           !! temp_path).
Proof.
  apply (import_keeps_report_file success_host _ _ _ demo_world temp_path);
    [reflexivity|].
  intros overlay result files' Hrun.
  assert (files' = <[temp_path := File success_text]>
                     (<[temp_path := File []]> (fs demo_world))) as ->.
  { change (Some (exited 0 (py ""),
                  <[temp_path := File success_text]>
                    (<[temp_path := File []]> (fs demo_world)))
            = Some (result, files')) in Hrun.
    congruence. }
  by rewrite lookup_insert_eq.
Defined.

(** ** More on the environment loader *)

(** *** Lines *)

Lemma universal_newlines_no_cr (s : str) : 0x0D ∉ universal_newlines s.
Proof.
  remember (length s) as n eqn:Hn.
  assert (length s ≤ n)%nat as Hle by lia. clear Hn.
  revert s Hle. induction n as [|n IH]; intros s Hle.
  { destruct s; [apply not_elem_of_nil | cbn in Hle; lia]. }
  destruct s as [|c s]; [apply not_elem_of_nil|]. cbn [length] in Hle.
  cbn [universal_newlines]. destruct (N.eqb_spec c 0x0D) as [->|Hc].
  - apply not_elem_of_cons. split; [done|].
    destruct s as [|c' s]; [apply not_elem_of_nil|]. cbn [length] in Hle.
    destruct (c' =? 0x0A); apply IH; cbn [length]; lia.
  - apply not_elem_of_cons. split; [congruence|]. apply IH. lia.
Qed.

Lemma universal_newlines_id (s : str) : 0x0D ∉ s → universal_newlines s = s.
Proof.
  induction s as [|c s IH]; [done|].
  intros [Hc Hs]%not_elem_of_cons. cbn.
  destruct (N.eqb_spec c 0x0D) as [->|_]; [done|]. by rewrite IH.
Qed.

Lemma universal_newlines_nil (s : str) : universal_newlines s = [] → s = [].
Proof. destruct s as [|c s]; [done|]. cbn. by destruct (c =? 0x0D). Qed.

Lemma universal_newlines_app (a b : str) :
  last a ≠ Some 0x0D →
  universal_newlines (a ++ b) = universal_newlines a ++ universal_newlines b.
Proof.
  remember (length a) as n eqn:Hn.
  assert (length a ≤ n)%nat as Hle by lia. clear Hn.
  revert a Hle. induction n as [|n IH]; intros a Hle Hlast.
  { destruct a; [done | cbn in Hle; lia]. }
  destruct a as [|c a]; [done|]. cbn [length] in Hle.
  cbn [app universal_newlines]. destruct (N.eqb_spec c 0x0D) as [->|Hc].
  - destruct a as [|c' a]; [done|]. cbn [length] in Hle.
    cbn [app]. f_equal. destruct (c' =? 0x0A).
    + apply IH; [lia|]. by destruct a.
    + apply (IH (c' :: a)); [cbn [length]; lia | done].
  - cbn [app]. f_equal. apply IH; [lia|]. by destruct a.
Qed.

Lemma universal_newlines_last (a : str) :
  last a = Some 0x0A → last (universal_newlines a) = Some 0x0A.
Proof.
  remember (length a) as n eqn:Hn.
  assert (length a ≤ n)%nat as Hle by lia. clear Hn.
  revert a Hle. induction n as [|n IH]; intros a Hle Hlast.
  { destruct a; [done | cbn in Hle; lia]. }
  destruct a as [|c a]; [done|]. cbn [length] in Hle.
  cbn [universal_newlines]. destruct (N.eqb_spec c 0x0D) as [->|Hc].
  - destruct a as [|c' a]; [done|]. cbn [length] in Hle.
    destruct (N.eqb_spec c' 0x0A) as [->|Hc'].
    + destruct a as [|c'' a]; [done|].
      assert (last (universal_newlines (c'' :: a)) = Some 0x0A) as Hl
        by (apply IH; [cbn [length] in *; lia | done]).
      destruct (universal_newlines (c'' :: a)) eqn:Hu; [done|]. done.
    + assert (last (universal_newlines (c' :: a)) = Some 0x0A) as Hl
        by (apply IH; [cbn [length]; lia | done]).
      destruct (universal_newlines (c' :: a)) eqn:Hu; [done|]. done.
  - destruct a as [|c' a]; [by simplify_eq/=|].
    assert (last (universal_newlines (c' :: a)) = Some 0x0A) as Hl
      by (apply IH; [lia | done]).
    destruct (universal_newlines (c' :: a)) eqn:Hu; [done|]. done.
Qed.

Lemma iter_lines_app (a b : str) :
  last a = Some 0x0A → iter_lines (a ++ b) = iter_lines a ++ iter_lines b.
Proof.
  induction a as [|c a IH]; [done|]. intros Hlast.
  cbn [app iter_lines]. destruct (N.eqb_spec c 0x0A) as [->|Hc].
  - destruct a as [|c' a]; [done|]. by rewrite IH.
  - destruct a as [|c' a]; [by simplify_eq/=|].
    rewrite IH by done.
    destruct (iter_lines (c' :: a)) eqn:Hlines; [|done].
    exfalso. cbn in Hlines. destruct (c' =? 0x0A); [done|].
    by destruct (iter_lines a).
Qed.

Lemma iter_lines_line (body : str) :
  0x0A ∉ body → iter_lines (body ++ [0x0A]) = [body ++ [0x0A]].
Proof.
  induction body as [|c body IH]; [done|].
  intros [Hc Hbody]%not_elem_of_cons. cbn [app iter_lines].
  destruct (N.eqb_spec c 0x0A) as [->|_]; [done|]. by rewrite IH.
Qed.

Lemma file_lines_app_line (text line : str) :
  ends_lines text → one_line line →
  file_lines (text ++ line ++ [0x0A]) = file_lines text ++ [line ++ [0x0A]].
Proof.
  intros Hends [Hlf Hcr]. unfold file_lines.
  assert (universal_newlines (line ++ [0x0A]) = line ++ [0x0A]) as Hline.
  { apply universal_newlines_id. rewrite elem_of_app, list_elem_of_singleton.
    intros [?|[=]]. done. }
  destruct Hends as [->|Hlast].
  - cbn [app universal_newlines iter_lines]. rewrite Hline.
    by apply iter_lines_line.
  - rewrite universal_newlines_app by (rewrite Hlast; congruence).
    rewrite iter_lines_app by by apply universal_newlines_last.
    rewrite Hline. by rewrite iter_lines_line.
Qed.

(** *** Plain keys and values *)

Lemma strip_trimmed (s : str) : trimmed s → strip s = s.
Proof.
  intros Ht. rewrite <- (app_nil_r s) at 1.
  rewrite <- (app_nil_l (s ++ [])). apply strip_unique; [constructor..|done].
Qed.

Lemma load_env_line_plain (m : gmap str str) (k v : str) :
  plain_key k → plain_value v →
  load_env_line m (env_line k v) = <[k := v]> m.
Proof.
  intros (Hk & [Hklf Hkcr] & Hkeq & Hkhash) (Hv & _).
  assert (trimmed (k ++ 0x3D :: v)) as Hline.
  { destruct Hk as [Hkh Hkl], Hv as [Hvh Hvl]. split; intros c.
    - destruct k as [|c' k]; [by intros [= <-]|]. apply Hkh.
    - rewrite last_app. destruct v as [|c' v] using rev_ind.
      + by intros [= <-].
      + rewrite last_cons, last_snoc. intros [= <-]. apply Hvl.
        by rewrite last_snoc. }
  assert (strip (env_line k v) = k ++ 0x3D :: v) as Hstrip.
  { unfold env_line. rewrite <- (app_nil_l (k ++ _)).
    change (k ++ [0x3D] ++ v ++ [0x0A]) with (k ++ 0x3D :: (v ++ [0x0A])).
    replace (k ++ 0x3D :: v ++ [0x0A]) with ((k ++ 0x3D :: v) ++ [0x0A])
      by by rewrite <- app_assoc.
    apply strip_unique; [constructor | by repeat constructor | done]. }
  assert (0x3D ∈ k ++ 0x3D :: v) as Hin
    by (apply elem_of_app; right; left).
  unfold load_env_line. rewrite Hstrip.
  rewrite bool_decide_eq_false_2 by by destruct k.
  assert (startswith (py "#") (k ++ 0x3D :: v) = false) as ->.
  { change (py "#") with [0x23].
    destruct k as [|c k]; [done|]. cbn [app startswith].
    destruct (N.eqb_spec 0x23 c) as [<-|]; [by destruct Hkhash | done]. }
  cbn [orb]. rewrite contains_elem_of, bool_decide_eq_true_2 by done.
  rewrite split1_elem_of by done.
  rewrite before_first_app_l, after_first_app_l by done.
  cbn [before_first after_first]. rewrite N.eqb_refl, app_nil_r.
  by rewrite !strip_trimmed.
Qed.

Lemma one_line_entry (k v : str) :
  one_line k → one_line v → one_line (k ++ 0x3D :: v).
Proof.
  intros [Hk1 Hk2] [Hv1 Hv2].
  split; rewrite elem_of_app, elem_of_cons; intros [?|[[=]|?]]; done.
Qed.

Lemma env_line_eq (k v : str) : env_line k v = (k ++ 0x3D :: v) ++ [0x0A].
Proof. unfold env_line. by rewrite <- app_assoc. Qed.

(** X17. Adding a line: for a text that is empty or ends with a line
    feed, a plain key and a plain value, the file with the line
    [key=value] added at its end loads as the file without it, with
    the key set to the value; a key that was there before gets the new
    value and the other keys keep theirs. *)
Theorem load_env_file_append
    (env_path : str) (files : gmap str node) (text k v : str) :
  ends_lines text → plain_key k → plain_value v →
  load_env_file env_path (<[env_path := File (text ++ env_line k v)]> files)
  = <[k := v]> <$> load_env_file env_path (<[env_path := File text]> files).
Proof.
  intros Hends Hk Hv. unfold load_env_file. rewrite !lookup_insert_eq.
  cbn [fmap option_fmap option_map]. f_equal. fold (file_lines text).
  fold (file_lines (text ++ env_line k v)).
  rewrite env_line_eq, file_lines_app_line;
    [|done | apply one_line_entry; [apply Hk | apply Hv]].
  rewrite foldl_app. cbn [foldl]. rewrite <- env_line_eq.
  by apply load_env_line_plain.
Qed.

Lemma load_env_file_append_witness :
  load_env_file (py ".env")
    {[ py ".env" := File ((py "A=1" ++ [0x0A]) ++ env_line (py "A") (py "x = y")) ]}
  = Some {[ py "A" := py "x = y" ]}.
Proof.
  pose proof (load_env_file_append (py ".env") ∅ (py "A=1" ++ [0x0A])
                (py "A") (py "x = y")) as Happend.
  rewrite !insert_empty in Happend. rewrite Happend.
  - by vm_compute.
  - by right.
  - repeat split; try (intros c [= <-]; by vm_compute);
      try (apply (bool_decide_unpack _); by vm_compute).
  - repeat split; try (intros c [= <-]; by vm_compute);
      try (apply (bool_decide_unpack _); by vm_compute).
Defined.

Lemma render_env_ends_lines (pairs : list (str * str)) :
  ends_lines (render_env pairs).
Proof.
  induction pairs as [|[k v] pairs IH]; [by left|]. right.
  unfold render_env. cbn [fmap list_fmap concat fst snd].
  fold (render_env pairs). rewrite last_app.
  destruct IH as [-> | ->]; [|done]. rewrite env_line_eq. by rewrite last_snoc.
Qed.

Lemma render_env_snoc (pairs : list (str * str)) (k v : str) :
  render_env (pairs ++ [(k, v)]) = render_env pairs ++ env_line k v.
Proof.
  unfold render_env. rewrite fmap_app, concat_app. cbn. by rewrite app_nil_r.
Qed.

Lemma file_lines_render_env (pairs : list (str * str)) :
  Forall (λ kv, plain_key kv.1 ∧ plain_value kv.2) pairs →
  file_lines (render_env pairs) = (λ kv, env_line kv.1 kv.2) <$> pairs.
Proof.
  induction pairs as [|[k v] pairs IH] using rev_ind; [done|].
  intros [Hpairs [[Hk Hv] _]%Forall_cons]%Forall_app. cbn [fst snd] in Hk, Hv.
  rewrite render_env_snoc, env_line_eq, file_lines_app_line;
    [|apply render_env_ends_lines
     |apply one_line_entry; [apply Hk | apply Hv]].
  rewrite IH by done. by rewrite fmap_app, <- env_line_eq.
Qed.

Lemma foldl_load_env_line_plain (pairs : list (str * str)) (m : gmap str str) :
  Forall (λ kv, plain_key kv.1 ∧ plain_value kv.2) pairs →
  foldl load_env_line m ((λ kv, env_line kv.1 kv.2) <$> pairs)
  = foldl (λ m e, <[e.1 := e.2]> m) m pairs.
Proof.
  intros Hpairs. revert m.
  induction Hpairs as [|[k v] pairs [Hk Hv] _ IH]; intros m; [done|].
  cbn [fmap list_fmap foldl fst snd] in *.
  by rewrite load_env_line_plain, IH.
Qed.

(** X18. Writing and loading: the file that has one line [key=value]
    for each pair of a list of plain keys and plain values loads as the
    mapping of those pairs, a later pair winning over an earlier one
    with the same key; with different keys the mapping has exactly the
    pairs of the list. *)
Theorem load_env_file_round_trip
    (env_path : str) (files : gmap str node) (pairs : list (str * str)) :
  Forall (λ kv, plain_key kv.1 ∧ plain_value kv.2) pairs →
  ∃ m, load_env_file env_path (<[env_path := File (render_env pairs)]> files)
       = Some m
       ∧ (∀ k, m !! k = last_value k pairs)
       ∧ (NoDup pairs.*1 → m = list_to_map pairs).
Proof.
  intros Hpairs. unfold load_env_file. rewrite lookup_insert_eq.
  eexists. split; [done|]. fold (file_lines (render_env pairs)).
  rewrite file_lines_render_env, foldl_load_env_line_plain by done.
  rewrite foldl_insert_list_to_map, (right_id_L ∅ (∪)).
  split; [intros k; apply list_to_map_lookup_find|].
  intros Hkeys. apply list_to_map_proper; [|apply reverse_Permutation].
  by rewrite fmap_reverse, reverse_Permutation.
Qed.

Lemma load_env_file_round_trip_witness :
  load_env_file (py ".env")
    {[ py ".env" := File (render_env [(py "URL", py "http://h/?a=b");
                                      (py "", py "");
                                      (py "NAME", py "Jan Novak")]) ]}
  = Some (list_to_map [(py "URL", py "http://h/?a=b"); (py "", py "");
                       (py "NAME", py "Jan Novak")]).
Proof.
  destruct (load_env_file_round_trip (py ".env") ∅
              [(py "URL", py "http://h/?a=b"); (py "", py "");
               (py "NAME", py "Jan Novak")])
    as (m & Hm & _ & Hmap).
  - repeat (apply Forall_cons_2; [|]); [..|apply Forall_nil_2];
      repeat split; try (intros c [= <-]; by vm_compute);
      try (apply (bool_decide_unpack _); by vm_compute).
  - rewrite insert_empty in Hm. rewrite Hm. f_equal. apply Hmap.
    apply (bool_decide_unpack _). by vm_compute.
Defined.

(** *** What an entry of the mapping looks like *)

Lemma iter_lines_elem_of (text line : str) :
  line ∈ iter_lines text →
  ∃ body, (0x0A ∉ body) ∧ (line = body ∨ line = body ++ [0x0A])
          ∧ ∀ c, c ∈ body → c ∈ text.
Proof.
  revert line. induction text as [|c text IH]; intros line; cbn [iter_lines].
  { by intros ?%elem_of_nil. }
  destruct (N.eqb_spec c 0x0A) as [->|Hc].
  - intros [->|Hin]%elem_of_cons.
    + exists []. split; [apply not_elem_of_nil|]. split; [by right|].
      by intros ? ?%elem_of_nil.
    + destruct (IH _ Hin) as (body & ? & ? & Hsub).
      exists body. split; [done|]. split; [done|]. intros; right; eauto.
  - destruct (iter_lines text) as [|l ls] eqn:Hlines.
    + intros ->%list_elem_of_singleton. exists [c].
      split; [by intros [=]%list_elem_of_singleton|]. split; [by left|].
      intros ? ->%list_elem_of_singleton. left.
    + intros [->|Hin]%elem_of_cons.
      * destruct (IH l ltac:(left)) as (body & Hbody & Hline & Hsub).
        exists (c :: body).
        split; [apply not_elem_of_cons; split; [congruence | done]|].
        split; [destruct Hline as [->| ->]; [by left | by right]|].
        intros c' [->|Hc']%elem_of_cons; [left | right; eauto].
      * destruct (IH line ltac:(by right)) as (body & ? & ? & Hsub).
        exists body. split; [done|]. split; [done|]. intros; right; eauto.
Qed.

Lemma strip_elem_of (c : N) (s : str) : c ∈ strip s → c ∈ s.
Proof.
  intros Hc. destruct (strip_decomp s) as (ws1 & ws2 & Heq & _).
  rewrite Heq, !elem_of_app. tauto.
Qed.

Lemma before_first_elem_of (c x : N) (s : str) :
  x ∈ before_first c s → x ∈ s ∧ x ≠ c.
Proof.
  induction s as [|y s IH]; cbn; [by intros ?%elem_of_nil|].
  destruct (N.eqb_spec y c) as [->|Hy]; [by intros ?%elem_of_nil|].
  intros [->|Hin]%elem_of_cons; [split; [left | done]|].
  destruct (IH Hin). split; [by right | done].
Qed.

Lemma after_first_elem_of (c x : N) (s : str) :
  x ∈ after_first c s → x ∈ s.
Proof.
  induction s as [|y s IH]; cbn; [done|].
  destruct (y =? c); intros Hin; right; [done | by apply IH].
Qed.

Lemma strip_line_no_lf (body line : str) :
  (0x0A ∉ body) → line = body ∨ line = body ++ [0x0A] →
  ∀ c, c ∈ strip line → c ∈ body.
Proof.
  intros Hbody [->| ->] c Hc; [by apply strip_elem_of|].
  rewrite strip_spaces_r in Hc by by repeat constructor.
  by apply strip_elem_of.
Qed.

Lemma load_env_line_strip (m : gmap str str) (line : str) :
  load_env_line m (strip line) = load_env_line m line.
Proof.
  unfold load_env_line.
  destruct (strip_decomp line) as (_ & _ & _ & _ & _ & Ht).
  by rewrite (strip_trimmed _ Ht).
Qed.

Lemma load_env_line_entry (m : gmap str str) (line k v : str) :
  load_env_line m line !! k = Some v →
  m !! k = Some v
  ∨ (trimmed k ∧ trimmed v ∧ (0x3D ∉ k)
     ∧ (∀ c, c ∈ k → c ∈ strip line) ∧ (∀ c, c ∈ v → c ∈ strip line)).
Proof.
  rewrite <- load_env_line_strip, load_env_line_reference.
  destruct (env_line_counts (strip line)); [|by left].
  unfold env_entry. cbn [fst snd].
  destruct (decide (strip (before_first 0x3D (strip line)) = k)) as [<-|Hk];
    [|rewrite lookup_insert_ne by done; by left].
  rewrite lookup_insert_eq. intros [= <-]. right.
  split; [by destruct (strip_decomp (before_first 0x3D (strip line)))
            as (_ & _ & _ & _ & _ & ?)|].
  split; [by destruct (strip_decomp (after_first 0x3D (strip line)))
            as (_ & _ & _ & _ & _ & ?)|].
  split; [intros Hin%strip_elem_of%before_first_elem_of; by destruct Hin|].
  split.
  - intros c Hc%strip_elem_of%before_first_elem_of. by destruct Hc.
  - intros c Hc%strip_elem_of%after_first_elem_of. done.
Qed.

(** X19. The entries of the mapping: whatever the file holds, every
    key and every value of the mapping is trimmed and on one line, and
    no key has an equals sign in it. *)
Theorem load_env_file_entries
    (env_path : str) (files : gmap str node) (m : gmap str str) (k v : str) :
  load_env_file env_path files = Some m →
  m !! k = Some v →
  trimmed k ∧ trimmed v ∧ (0x3D ∉ k) ∧ one_line k ∧ one_line v.
Proof.
  unfold load_env_file.
  destruct (files !! env_path) as [[text|]|]; [|done|by intros [= <-]].
  intros [= <-]. fold (file_lines text).
  assert (∀ lines (m : gmap str str),
            (∀ line, line ∈ lines → line ∈ file_lines text) →
            (∀ k v, m !! k = Some v →
                    trimmed k ∧ trimmed v ∧ (0x3D ∉ k) ∧ one_line k ∧ one_line v) →
            ∀ k v, foldl load_env_line m lines !! k = Some v →
                   trimmed k ∧ trimmed v ∧ (0x3D ∉ k) ∧ one_line k ∧ one_line v)
    as Hfold.
  { clear k v. induction lines as [|line lines IH]; intros m Hlines Hm; [done|].
    cbn [foldl]. apply IH; [intros; apply Hlines; by right|].
    intros k v [?|(Hk & Hv & Heq & Hks & Hvs)]%load_env_line_entry; [eauto|].
    split; [done|]. split; [done|]. split; [done|].
    destruct (iter_lines_elem_of _ line (Hlines line ltac:(left)))
      as (body & Hbody & Hline & Hsub).
    pose proof (strip_line_no_lf body line Hbody Hline) as Hstrip.
    pose proof (universal_newlines_no_cr text) as Hcr.
    assert (∀ s : str, (∀ c, c ∈ s → c ∈ strip line) → one_line s) as Hone.
    { intros s Hs. split; intros Hin%Hs%Hstrip; [done|]. by apply Hsub in Hin. }
    split; by apply Hone. }
  apply (Hfold (file_lines text) ∅); [done|]. intros ? ? Hempty.
  by rewrite lookup_empty in Hempty.
Qed.

Lemma load_env_file_entries_witness :
  trimmed (py "POHODA_URL") ∧ trimmed (py "http://localhost")
  ∧ (0x3D ∉ py "POHODA_URL").
Proof.
  destruct (load_env_file_entries (py ".env") (fs demo_world) _
              (py "POHODA_URL") (py "http://localhost") eq_refl
              ltac:(by vm_compute)) as (Hk & Hv & Heq & _).
  split; [exact Hk|]. split; [exact Hv | exact Heq].
Defined.
